(** * ctrl-qbittorrent: the client of src/index.ts, embedded and verified

    The class [QBittorrent] of [src/index.ts] is embedded function by
    function.  Methods that touch the instance or the network run in a small
    state-and-exception monad over the instance fields and the log of
    outbound HTTP calls; the two private normalizers are plain functions.
    The collaborators the file imports (the HTTP transport [got], [url-join],
    [tough-cookie], [form-data], [fs]) are binders of one record,
    [Externals]. *)

From Stdlib Require Import ZArith QArith String Ascii List Lia.
From stdpp Require Import base option list strings gmap.

Local Open Scope string_scope.
Local Open Scope Z_scope.

(** ** JavaScript values the file relies on *)

Module JS.

(** What a [throw] carries: the constructor and the message. *)
Inductive Exn : Type :=
| Error (msg : string)
| TypeError (msg : string)
| RangeError (msg : string)
| TransportError (msg : string).

(** The completion of a call: a returned value or a thrown exception. *)
Inductive Outcome (A : Type) : Type :=
| Returned (a : A)
| Thrown (e : Exn).
Arguments Returned {A} a.
Arguments Thrown {A} e.

(** [!s] is true exactly for the empty string. *)
Definition truthy_string (s : string) : bool := negb (String.eqb s "").

(** [!x] on an optional string: [undefined] and [''] are both falsy. *)
Definition truthy_opt_string (o : option string) : bool :=
  match o with
  | None => false
  | Some s => truthy_string s
  end.

(** [if (n)] on a number: zero is falsy. *)
Definition truthy_number (n : Z) : bool := negb (n =? 0).

(** Property values that occur in query and body objects. *)
Inductive Val : Type :=
| VStr (s : string)
| VNum (n : Z)
| VBool (b : bool).

(** An object literal, as its properties in insertion order. *)
Definition Obj : Type := list (string * Val).

Fixpoint has_key (k : string) (o : Obj) : bool :=
  match o with
  | [] => false
  | (k', _) :: o' => String.eqb k k' || has_key k o'
  end.

Fixpoint set_prop (k : string) (v : Val) (o : Obj) : Obj :=
  match o with
  | [] => [(k, v)]
  | (k', v') :: o' =>
      if String.eqb k k' then (k', v) :: o' else (k', v') :: set_prop k v o'
  end.

(** [{...a, ...b}]: the properties of [b] are written over those of [a]. *)
Definition spread (a b : Obj) : Obj :=
  fold_left (fun acc kv => set_prop (fst kv) (snd kv) acc) b a.

(** [Array.prototype.join]: the loop of the language definition, the
    separator written before every element but the first. *)
Fixpoint join_from (sep : string) (first : bool) (acc : string)
    (l : list string) : string :=
  match l with
  | [] => acc
  | x :: l' =>
      join_from sep false ((if first then acc else acc ++ sep) ++ x) l'
  end.

Definition join (sep : string) (l : list string) : string :=
  join_from sep true "" l.

End JS.
Export JS.

(** ** [Date]: time values and [toISOString] *)

Module Date.

(** The largest time value, in milliseconds either side of the epoch. *)
Definition maxTime : Z := 8640000000000000.

(** [new Date(ms)]: the time value, or [None] for an invalid date. *)
Definition TimeClip (ms : Z) : option Z :=
  if Z.abs ms <=? maxTime then Some ms else None.

Definition digit (d : Z) : ascii := ascii_of_nat (48 + Z.to_nat (d mod 10)).

(** The [w] low decimal digits of [n], zero padded. *)
Fixpoint pad (w : nat) (n : Z) : string :=
  match w with
  | O => ""
  | S w' => pad w' (n / 10) ++ String (digit n) ""
  end.

(** Days since the epoch to a proleptic Gregorian (year, month, day). *)
Definition civil (days : Z) : Z * Z * Z :=
  let z := days + 719468 in
  let era := z / 146097 in
  let doe := z - era * 146097 in
  let yoe := (doe - doe / 1460 + doe / 36524 - doe / 146096) / 365 in
  let doy := doe - (365 * yoe + yoe / 4 - yoe / 100) in
  let mp := (5 * doy + 2) / 153 in
  let d := doy - (153 * mp + 2) / 5 + 1 in
  let m := if mp <? 10 then mp + 3 else mp - 9 in
  let y := yoe + era * 400 + (if m <=? 2 then 1 else 0) in
  (y, m, d).

Definition year_string (y : Z) : string :=
  if (0 <=? y) && (y <=? 9999) then pad 4 y
  else if y <? 0 then "-" ++ pad 6 (- y)
  else "+" ++ pad 6 y.

Definition render (t : Z) : string :=
  let days := t / 86400000 in
  let ms := t mod 86400000 in
  let '(y, m, d) := civil days in
  year_string y ++ "-" ++ pad 2 m ++ "-" ++ pad 2 d ++ "T"
    ++ pad 2 (ms / 3600000) ++ ":" ++ pad 2 (ms / 60000 mod 60) ++ ":"
    ++ pad 2 (ms / 1000 mod 60) ++ "." ++ pad 3 (ms mod 1000) ++ "Z".

(** [new Date(ms).toISOString()]: throws on an invalid date (the message is
    the engine's wording). *)
Definition toISOString (ms : Z) : Outcome string :=
  match TimeClip ms with
  | Some t => Returned (render t)
  | None => Thrown (RangeError "Invalid time value")
  end.

End Date.

(** ** Data model *)

(** The normalized state enum of [@ctrl/shared-torrent]. *)
Module TorrentState.
Inductive t : Type :=
| unknown | downloading | seeding | checking | error | queued | paused.
End TorrentState.

(** Modelled from the spec: the daemon's state enum [TorrentState] of
    [./types] (imported as [qbtState]) is not among the sources.  It is a
    string enum; the members the normalizer reads are given the state names
    of the daemon's Web API, which is what the raw records carry. *)
Module qbtState.
Definition Error : string := "error".
Definition PausedUP : string := "pausedUP".
Definition PausedDL : string := "pausedDL".
Definition QueuedUP : string := "queuedUP".
Definition QueuedDL : string := "queuedDL".
Definition Uploading : string := "uploading".
Definition StalledUP : string := "stalledUP".
Definition CheckingUP : string := "checkingUP".
Definition CheckingDL : string := "checkingDL".
Definition Downloading : string := "downloading".
Definition StalledDL : string := "stalledDL".
End qbtState.

(** The raw record of the daemon, with the fields [index.ts] reads.  Counters
    and epoch seconds are integers; [progress] and [ratio] are fractional
    numbers, kept as rationals. *)
Record Torrent : Type := {
  hash : string;
  name : string;
  state : string;
  progress : Q;
  category : string;
  added_on : Z;
  completion_on : Z;
  save_path : string;
  upspeed : Z;
  dlspeed : Z;
  eta : Z;
  priority : Z;
  num_leechs : Z;
  num_seeds : Z;
  num_incomplete : Z;
  num_complete : Z;
  size : Z;
  total_size : Z;
  uploaded : Z;
  downloaded : Z;
  ratio : Q
}.

Module Normalized.
Record NormalizedTorrent : Type := {
  id : string;
  name : string;
  stateMessage : string;
  state : TorrentState.t;
  dateAdded : string;
  isCompleted : bool;
  progress : Q;
  label : string;
  dateCompleted : string;
  savePath : string;
  uploadSpeed : Z;
  downloadSpeed : Z;
  eta : Z;
  queuePosition : Z;
  connectedPeers : Z;
  connectedSeeds : Z;
  totalPeers : Z;
  totalSeeds : Z;
  totalSelected : Z;
  totalSize : Z;
  totalUploaded : Z;
  totalDownloaded : Z;
  ratio : Q
}.
End Normalized.
Export Normalized(NormalizedTorrent).

Record Label : Type := {
  label_id : string;
  label_name : string;
  label_count : Z
}.

Record AllClientData : Type := {
  torrents : list NormalizedTorrent;
  labels : list Label
}.

(** ** The private normalizers *)

(** [_normalizeHashes]: [inr] is the array case of [string | string[]]. *)
Definition _normalizeHashes (hashes : string + list string) : string :=
  match hashes with
  | inr l => JS.join "|" l
  | inl s => s
  end.

(** [a >= b] on numbers. *)
Definition num_ge (a b : Q) : bool := Qle_bool b a.

(** The chain of [if]s that picks the state.  The first test is
    [torrent.state === qbtState.Uploading || qbtState.CheckingUP]: its second
    operand is the enum member itself, read for its truth value. *)
Definition normalized_state (torrent : Torrent) : TorrentState.t :=
  if String.eqb (state torrent) qbtState.Uploading
     || JS.truthy_string qbtState.CheckingUP
  then TorrentState.seeding
  else if String.eqb (state torrent) qbtState.Downloading
  then TorrentState.downloading
  else if String.eqb (state torrent) qbtState.CheckingDL
  then TorrentState.checking
  else if String.eqb (state torrent) qbtState.Error
          || String.eqb (state torrent) qbtState.StalledDL
  then TorrentState.error
  else if existsb (String.eqb (state torrent))
            [qbtState.QueuedDL; qbtState.QueuedUP]
  then TorrentState.queued
  else if String.eqb (state torrent) qbtState.PausedDL
          || String.eqb (state torrent) qbtState.PausedUP
  then TorrentState.paused
  else TorrentState.unknown.

(** [_normalizeTorrentData].  The two [toISOString] calls are the only places
    that can throw, in the order the object literal evaluates them. *)
Definition _normalizeTorrentData (torrent : Torrent) : Outcome NormalizedTorrent :=
  let state := normalized_state torrent in
  let isCompleted := num_ge (progress torrent) (100 # 1) in
  match Date.toISOString (added_on torrent * 1000) with
  | Thrown e => Thrown e
  | Returned dateAdded =>
      match Date.toISOString (completion_on torrent * 1000) with
      | Thrown e => Thrown e
      | Returned dateCompleted =>
          Returned {|
            Normalized.id := hash torrent;
            Normalized.name := name torrent;
            Normalized.stateMessage := "";
            Normalized.state := state;
            Normalized.dateAdded := dateAdded;
            Normalized.isCompleted := isCompleted;
            Normalized.progress := progress torrent;
            Normalized.label := category torrent;
            Normalized.dateCompleted := dateCompleted;
            Normalized.savePath := save_path torrent;
            Normalized.uploadSpeed := upspeed torrent;
            Normalized.downloadSpeed := dlspeed torrent;
            Normalized.eta := eta torrent;
            Normalized.queuePosition := priority torrent;
            Normalized.connectedPeers := num_leechs torrent;
            Normalized.connectedSeeds := num_seeds torrent;
            Normalized.totalPeers := num_incomplete torrent;
            Normalized.totalSeeds := num_complete torrent;
            Normalized.totalSelected := size torrent;
            Normalized.totalSize := total_size torrent;
            Normalized.totalUploaded := uploaded torrent;
            Normalized.totalDownloaded := downloaded torrent;
            Normalized.ratio := ratio torrent
          |}
      end
  end.

(** ** Configuration and instance state *)

(** A proxy agent handed to the transport; only its identity matters. *)
Inductive Agent : Type := mkAgent (tag : string).

Record TorrentSettings : Type := {
  baseUrl : string;
  path : string;
  username : string;
  password : string;
  timeout : option Z;
  agent : option Agent
}.

Definition defaults : TorrentSettings := {|
  baseUrl := "http://localhost:9091/";
  path := "/api/v2";
  username := "";
  password := "";
  timeout := Some 5000;
  agent := None
|}.

(** [Partial<TorrentSettings>]: every field may be left out. *)
Record PartialSettings : Type := {
  opt_baseUrl : option string;
  opt_path : option string;
  opt_username : option string;
  opt_password : option string;
  opt_timeout : option Z;
  opt_agent : option Agent
}.

Definition no_options : PartialSettings :=
  {| opt_baseUrl := None; opt_path := None; opt_username := None;
     opt_password := None; opt_timeout := None; opt_agent := None |}.

(** The fields of a [QBittorrent] instance. *)
Record QBittorrent : Type := {
  config : TorrentSettings;
  _sid : option string
}.

(** [constructor]: [{ ...defaults, ...options }], no session yet. *)
Definition constructor (options : PartialSettings) : QBittorrent := {|
  config := {|
    baseUrl := default (baseUrl defaults) (opt_baseUrl options);
    path := default (path defaults) (opt_path options);
    username := default (username defaults) (opt_username options);
    password := default (password defaults) (opt_password options);
    timeout := match opt_timeout options with
               | Some n => Some n
               | None => timeout defaults
               end;
    agent := match opt_agent options with
             | Some a => Some a
             | None => agent defaults
             end
  |};
  _sid := None
|}.

(** ** Outbound calls *)

Definition Buffer : Type := list Byte.byte.

Record AppendOptions : Type := {
  contentType : string;
  filename : string
}.

Inductive FormValue : Type :=
| FBuffer (b : Buffer)
| FField (v : Val).

(** One [form.append(field, value, options?)]. *)
Record FormEntry : Type := {
  field : string;
  value : FormValue;
  append_options : option AppendOptions
}.

Definition FormData : Type := list FormEntry.

Inductive ReqBody : Type :=
| NoBody
| ObjBody (o : Obj)
| FormBody (f : FormData).

(** The options object handed to [got]; a property that the code does not
    write is [None]. *)
Record GotOptions : Type := {
  o_method : option string;
  o_headers : option Obj;
  o_retry : Z;
  o_json : option bool;
  o_form : option bool;
  o_body : ReqBody;
  o_query : option Obj;
  o_followRedirect : option bool;
  o_agent : option Agent;
  o_timeout : option Z
}.

Inductive Via : Type := GotPost | GotCall.

(** One outbound HTTP call: [got.post(url, options)] or [got(url, options)]. *)
Record HttpCall : Type := {
  via : Via;
  url : string;
  options : GotOptions
}.

(** The declared type of a response body, the [T] of [request<T>]. *)
Inductive BodyT : Type := T_string | T_Torrents | T_object.

(** A decoded body whose type [./types] declares, kept opaque. *)
Inductive Json : Type := JRaw (text : string).

Definition Body (T : BodyT) : Type :=
  match T with
  | T_string => string
  | T_Torrents => list Torrent
  | T_object => Json
  end.

(** What the code reads of a response: the [set-cookie] header and the body. *)
Record Response (B : Type) : Type := {
  set_cookie : option (list string);
  body : B
}.
Arguments set_cookie {B} r.
Arguments body {B} r.

Record Cookie : Type := {
  key : string;
  cookie_value : string
}.

(** The imported collaborators.  The transport answers a call knowing the calls
    made before it, so a daemon with state of its own is covered; it either
    returns a response or throws. *)
Record Externals : Type := {
  urljoin : list string -> string;
  got_post : list HttpCall -> string -> GotOptions -> Outcome (Response string);
  got : forall T : BodyT,
      list HttpCall -> string -> GotOptions -> Outcome (Response (Body T));
  Cookie_parse : string -> option Cookie;
  fs_existsSync : string -> bool;
  fs_readFileSync : string -> Outcome Buffer;
  Buffer_from_base64 : string -> Buffer;
  form_getHeaders : FormData -> Obj
}.

(** ** The monad of the methods *)

(** The instance and the calls sent so far, oldest first. *)
Record Sys : Type := {
  self : QBittorrent;
  wire : list HttpCall
}.

Definition M (A : Type) : Type := Sys -> Outcome A * Sys.

Definition ret {A} (a : A) : M A := fun s => (Returned a, s).

Definition throw {A} (e : Exn) : M A := fun s => (Thrown e, s).

Definition bind {A B} (m : M A) (k : A -> M B) : M B :=
  fun s =>
    match m s with
    | (Returned a, s') => k a s'
    | (Thrown e, s') => (Thrown e, s')
    end.

Notation "x <- m ;; k" := (bind m (fun x => k))
  (at level 100, m at next level, right associativity).
Notation "m ;;; k" := (bind m (fun _ => k))
  (at level 100, right associativity).

Definition lift {A} (o : Outcome A) : M A := fun s => (o, s).

Definition this_config : M TorrentSettings := fun s => (Returned (config (self s)), s).

Definition this_sid : M (option string) := fun s => (Returned (_sid (self s)), s).

Definition set_sid (v : option string) : M unit :=
  fun s =>
    (Returned tt,
     {| self := {| config := config (self s); _sid := v |}; wire := wire s |}).

(** Send one call: it is logged, and the transport's answer is the outcome. *)
Definition send {B} (v : Via) (u : string) (o : GotOptions)
    (answer : list HttpCall -> string -> GotOptions -> Outcome (Response B))
  : M (Response B) :=
  fun s =>
    (answer (wire s) u o,
     {| self := self s;
        wire := wire s ++ [{| via := v; url := u; options := o |}] |}).

(** ** The object literal used as the label dictionary

    [labels] starts as [{}] and is read and written with [labels[key]].  A
    read sees the object's own properties and then its prototype chain; a
    write creates an own property, except for the key [__proto__], whose
    setter replaces the prototype. *)

Inductive PropVal : Type :=
| PUndefined
| PLabel (l : Label)
| PString (s : string)
| PNumber (n : Z)
| PBuiltin.

Definition truthy_val (v : PropVal) : bool :=
  match v with
  | PUndefined => false
  | PLabel _ => true
  | PString s => JS.truthy_string s
  | PNumber n => JS.truthy_number n
  | PBuiltin => true
  end.

(** The own properties, and the label object that took the place of the
    prototype if [__proto__] was assigned. *)
Record LabelDict : Type := {
  own : gmap string Label;
  proto : option Label
}.

Definition empty_dict : LabelDict := {| own := ∅; proto := None |}.

(** The data properties every object inherits from [Object.prototype]. *)
Definition Object_prototype_keys : list string :=
  ["constructor"; "__defineGetter__"; "__defineSetter__"; "hasOwnProperty";
   "__lookupGetter__"; "__lookupSetter__"; "isPrototypeOf";
   "propertyIsEnumerable"; "toString"; "valueOf"; "toLocaleString"].

Definition inherited (k : string) : PropVal :=
  if existsb (String.eqb k) Object_prototype_keys then PBuiltin else PUndefined.

(** [labels[k]] read. *)
Definition dict_get (d : LabelDict) (k : string) : PropVal :=
  if String.eqb k "__proto__" then
    match proto d with
    | Some l => PLabel l
    | None => PBuiltin
    end
  else
    match own d !! k with
    | Some l => PLabel l
    | None =>
        match proto d with
        | Some l =>
            if String.eqb k "id" then PString (label_id l)
            else if String.eqb k "name" then PString (label_name l)
            else if String.eqb k "count" then PNumber (label_count l)
            else inherited k
        | None => inherited k
        end
    end.

(** [labels[k] = l]. *)
Definition dict_set (d : LabelDict) (k : string) (l : Label) : LabelDict :=
  if String.eqb k "__proto__"
  then {| own := own d; proto := Some l |}
  else {| own := <[k := l]> (own d); proto := proto d |}.

(** ** The methods of the class *)

Definition with_agent (a : Agent) (o : GotOptions) : GotOptions :=
  {| o_method := o_method o; o_headers := o_headers o; o_retry := o_retry o;
     o_json := o_json o; o_form := o_form o; o_body := o_body o;
     o_query := o_query o; o_followRedirect := o_followRedirect o;
     o_agent := Some a; o_timeout := o_timeout o |}.

Definition with_timeout (n : Z) (o : GotOptions) : GotOptions :=
  {| o_method := o_method o; o_headers := o_headers o; o_retry := o_retry o;
     o_json := o_json o; o_form := o_form o; o_body := o_body o;
     o_query := o_query o; o_followRedirect := o_followRedirect o;
     o_agent := o_agent o; o_timeout := Some n |}.

(** The two trailing [if]s shared by [login] and [request]: pass the proxy
    agent and the timeout on when the configuration has them. *)
Definition apply_config (cfg : TorrentSettings) (o : GotOptions) : GotOptions :=
  let o := match agent cfg with
           | Some a => with_agent a o
           | None => o
           end in
  match timeout cfg with
  | Some n => if JS.truthy_number n then with_timeout n o else o
  | None => o
  end.

(** The text of [${this._sid}] in the cookie header. *)
Definition sid_text (sid : option string) : string :=
  match sid with
  | Some s => s
  | None => "undefined"
  end.

Section Methods.

Variable ext : Externals.

Definition login_url (cfg : TorrentSettings) : string :=
  urljoin ext [baseUrl cfg; path cfg; "/auth/login"].

Definition login_options (cfg : TorrentSettings) : GotOptions :=
  apply_config cfg
    {| o_method := None; o_headers := None; o_retry := 0; o_json := None;
       o_form := Some true;
       o_body := ObjBody [("username", VStr (username cfg));
                          ("password", VStr (password cfg))];
       o_query := None; o_followRedirect := Some false;
       o_agent := None; o_timeout := None |}.

Definition login : M bool :=
  cfg <- this_config ;;
  res <- send GotPost (login_url cfg) (login_options cfg) (got_post ext) ;;
  match set_cookie res with
  | None => throw (Error "Cookie not found. Auth Failed.")
  | Some [] => throw (Error "Cookie not found. Auth Failed.")
  | Some (first :: _) =>
      match Cookie_parse ext first with
      | None => throw (Error "Invalid cookie")
      | Some cookie =>
          if negb (String.eqb (key cookie) "SID")
          then throw (Error "Invalid cookie")
          else set_sid (Some (cookie_value cookie)) ;;; ret true
      end
  end.

Definition logout : M bool :=
  set_sid None ;;; ret true.

Definition request_url (cfg : TorrentSettings) (path_ : string) : string :=
  urljoin ext [baseUrl cfg; path cfg; path_].

Definition request_options (cfg : TorrentSettings) (sid : option string)
    (method : string) (params : Obj) (body : ReqBody) (headers : Obj)
    (json : bool) : GotOptions :=
  apply_config cfg
    {| o_method := Some method;
       o_headers := Some (JS.spread [("Cookie", VStr ("SID=" ++ sid_text sid))]
                                    headers);
       o_retry := 0; o_json := Some json; o_form := None; o_body := body;
       o_query := Some params; o_followRedirect := None;
       o_agent := None; o_timeout := None |}.

(** [request]: [params], [headers] and [json] take their defaults when the
    caller passes [undefined]. *)
Definition request (T : BodyT) (path_ method : string) (params : option Obj)
    (body : ReqBody) (headers : option Obj) (json : option bool)
  : M (Response (Body T)) :=
  let params := default [] params in
  let headers := default [] headers in
  let json := default true json in
  sid <- this_sid ;;
  (if negb (JS.truthy_opt_string sid)
   then authed <- login ;;
        if negb authed then throw (Error "Auth Failed") else ret tt
   else ret tt) ;;;
  cfg <- this_config ;;
  sid <- this_sid ;;
  send GotCall (request_url cfg path_)
    (request_options cfg sid method params body headers json) (got ext T).

Definition version : M string :=
  res <- request T_string "/app/version" "GET" None NoBody None (Some false) ;;
  ret (body res).

(** [if (hashes)] on [string | string[] | undefined]: an array is truthy
    even when empty. *)
Definition truthy_hashes (hashes : option (string + list string)) : bool :=
  match hashes with
  | None => false
  | Some (inl s) => JS.truthy_string s
  | Some (inr _) => true
  end.

Definition listTorrents (hashes : option (string + list string))
    (filter category : option string) : M (list Torrent) :=
  let params : Obj := [] in
  let params :=
    match hashes with
    | Some h => if truthy_hashes hashes
                then JS.set_prop "hashes" (VStr (_normalizeHashes h)) params
                else params
    | None => params
    end in
  let params :=
    match filter with
    | Some f => if JS.truthy_string f
                then JS.set_prop "filter" (VStr f) params else params
    | None => params
    end in
  let params :=
    match category with
    | Some c => if JS.truthy_string c
                then JS.set_prop "category" (VStr c) params else params
    | None => params
    end in
  res <- request T_Torrents "/torrents/info" "GET" (Some params) NoBody None None ;;
  ret (body res).

Definition getTorrent (hash : string) : M NormalizedTorrent :=
  torrentsResponse <- listTorrents (Some (inl hash)) None None ;;
  match torrentsResponse !! 0%nat with
  | None => throw (Error "Torrent not found")
  | Some torrentData => lift (_normalizeTorrentData torrentData)
  end.


(** The body of the [for ... of] loop in [getAllData], run over the rest of
    the list: [results] and the dictionary [labels_] are the two locals
    the loop updates.  In the inner [if] the record is written when the
    key is already there, and the count is bumped when it is not; reading
    [.count] of [undefined] throws, and so does the write on a falsy
    primitive, class bodies being strict code. *)
Fixpoint getAllData_loop (listTorrents_ : list Torrent)
    (results : AllClientData) (labels_ : LabelDict) : Outcome AllClientData :=
  match listTorrents_ with
  | [] => Returned results
  | torrent :: rest =>
      match _normalizeTorrentData torrent with
      | Thrown e => Thrown e
      | Returned torrentData =>
          let results :=
            {| torrents := torrents results ++ [torrentData];
               labels := labels results |} in
          let label := Normalized.label torrentData in
          if JS.truthy_string label then
            if truthy_val (dict_get labels_ label) then
              getAllData_loop rest results
                (dict_set labels_ label
                   {| label_id := label; label_name := label; label_count := 1 |})
            else Thrown (TypeError "Cannot read property 'count' of undefined")
          else getAllData_loop rest results labels_
      end
  end.

Definition getAllData : M AllClientData :=
  listTorrents_ <- listTorrents None None None ;;
  lift (getAllData_loop listTorrents_ {| torrents := []; labels := [] |} empty_dict).

Definition torrentProperties (hash : string) : M Json :=
  res <- request T_object "/torrents/properties" "GET"
           (Some [("hash", VStr hash)]) NoBody None None ;;
  ret (body res).

Definition torrentTrackers (hash : string) : M Json :=
  res <- request T_object "/torrents/trackers" "GET"
           (Some [("hash", VStr hash)]) NoBody None None ;;
  ret (body res).

Definition torrentWebSeeds (hash : string) : M Json :=
  res <- request T_object "/torrents/webseeds" "GET"
           (Some [("hash", VStr hash)]) NoBody None None ;;
  ret (body res).

Definition torrentFiles (hash : string) : M Json :=
  res <- request T_object "/torrents/files" "GET"
           (Some [("hash", VStr hash)]) NoBody None None ;;
  ret (body res).

Definition setFilePriority (hash : string) (fileIds : string + list string)
    (priority : Z) : M Json :=
  res <- request T_object "/torrents/filePrio" "GET"
           (Some [("hash", VStr hash);
                  ("id", VStr (_normalizeHashes fileIds));
                  ("priority", VNum priority)]) NoBody None None ;;
  ret (body res).

Definition torrentPieceStates (hash : string) : M Json :=
  res <- request T_object "/torrents/pieceStates" "GET"
           (Some [("hash", VStr hash)]) NoBody None None ;;
  ret (body res).

Definition torrentPieceHashes (hash : string) : M Json :=
  res <- request T_object "/torrents/pieceHashes" "GET"
           (Some [("hash", VStr hash)]) NoBody None None ;;
  ret (body res).

Definition setTorrentLocation (hashes : string + list string)
    (location : string) : M bool :=
  let body := [("hashes", VStr (_normalizeHashes hashes));
               ("location", VStr location)] in
  request T_object "/torrents/setLocation" "POST" None (ObjBody body) None None ;;;
  ret true.

Definition setTorrentName (hashes : string + list string) (name : string)
  : M bool :=
  let body := [("hashes", VStr (_normalizeHashes hashes));
               ("name", VStr name)] in
  request T_object "/torrents/rename" "POST" None (ObjBody body) None None ;;;
  ret true.

Definition createCategory (category : string) : M bool :=
  let body := [("category", VStr category)] in
  request T_object "/torrents/createCategory" "POST" None (ObjBody body) None None ;;;
  ret true.

Definition removeCategory (category : string) : M bool :=
  let body := [("category", VStr category)] in
  request T_object "/torrents/removeCategories" "POST" None (ObjBody body) None None ;;;
  ret true.

Definition setTorrentCategory (hashes : string + list string)
    (category : string) : M bool :=
  let body := [("hashes", VStr (_normalizeHashes hashes));
               ("category", VStr category)] in
  request T_object "/torrents/setCategory" "POST" None (ObjBody body) None None ;;;
  ret true.

(** The shape shared by the bulk operations: one GET whose only parameter
    is the normalized hash set. *)
Definition hashes_call (path_ : string) (hashes : string + list string)
  : M bool :=
  let params := [("hashes", VStr (_normalizeHashes hashes))] in
  request T_object path_ "GET" (Some params) NoBody None None ;;;
  ret true.

Definition pauseTorrent := hashes_call "/torrents/pause".

Definition resumeTorrent := hashes_call "/torrents/resume".

Definition removeTorrent (hashes : string + list string)
    (deleteFiles : option bool) : M bool :=
  let deleteFiles := default true deleteFiles in
  let params := [("hashes", VStr (_normalizeHashes hashes));
                 ("deleteFiles", VBool deleteFiles)] in
  request T_object "/torrents/delete" "GET" (Some params) NoBody None None ;;;
  ret true.

Definition recheckTorrent := hashes_call "/torrents/recheck".

Definition reannounceTorrent := hashes_call "/torrents/reannounce".

(** The form [addTorrent] builds before it sends anything.  A string is
    read as a file when a file of that name exists and decoded as base64
    otherwise; reading the file can throw. *)
Definition addTorrent_form (torrent : string + Buffer) (filename : string)
    (options : option Obj) : Outcome FormData :=
  let fileOptions :=
    {| contentType := "application/x-bittorrent"; filename := filename |} in
  let file (b : Buffer) : FormEntry :=
    {| field := "file"; value := FBuffer b; append_options := Some fileOptions |} in
  let fields :=
    match options with
    | Some o =>
        map (fun kv => {| field := fst kv; value := FField (snd kv);
                          append_options := None |}) o
    | None => []
    end in
  match torrent with
  | inl s =>
      if fs_existsSync ext s then
        match fs_readFileSync ext s with
        | Returned b => Returned (file b :: fields)
        | Thrown e => Thrown e
        end
      else Returned (file (Buffer_from_base64 ext s) :: fields)
  | inr b => Returned (file b :: fields)
  end.

Definition addTorrent (torrent : string + Buffer) (filename : option string)
    (options : option Obj) : M bool :=
  let filename := default "torrent" filename in
  form <- lift (addTorrent_form torrent filename options) ;;
  res <- request T_string "/torrents/add" "POST" None (FormBody form)
           (Some (form_getHeaders ext form)) (Some false) ;;
  if String.eqb (body res) "Fails."
  then throw (Error "Failed to add torrent")
  else ret true.

Definition addTrackers (hash urls : string) : M bool :=
  let params := [("hash", VStr hash); ("urls", VStr urls)] in
  request T_object "/torrents/addTrackers" "GET" (Some params) NoBody None None ;;;
  ret true.

Definition editTrackers (hash origUrl newUrl : string) : M bool :=
  let params := [("hash", VStr hash); ("origUrl", VStr origUrl);
                 ("newUrl", VStr newUrl)] in
  request T_object "/torrents/editTrackers" "GET" (Some params) NoBody None None ;;;
  ret true.

Definition removeTrackers (hash urls : string) : M bool :=
  let params := [("hash", VStr hash); ("urls", VStr urls)] in
  request T_object "/torrents/editTrackers" "GET" (Some params) NoBody None None ;;;
  ret true.

Definition queueUp := hashes_call "/torrents/increasePrio".

Definition queueDown := hashes_call "/torrents/decreasePrio".

Definition topPriority := hashes_call "/torrents/topPrio".

Definition bottomPriority := hashes_call "/torrents/bottomPrio".

End Methods.

(** ** Observing a run *)

(** The calls a computation sends when started in [s]. *)
Definition sent {A} (m : M A) (s : Sys) : list HttpCall :=
  drop (length (wire s)) (wire (snd (m s))).

Definition is_login_call (c : HttpCall) : bool :=
  match via c with
  | GotPost => true
  | GotCall => false
  end.

(** How many login calls a computation sends. *)
Definition login_calls {A} (m : M A) (s : Sys) : nat :=
  length (List.filter is_login_call (sent m s)).

(** The call [login] sends, and the call [request] sends once the gate is
    passed with the session [sid] in place. *)
Definition login_call (ext : Externals) (cfg : TorrentSettings) : HttpCall :=
  {| via := GotPost; url := login_url ext cfg; options := login_options cfg |}.

Definition target_call (ext : Externals) (cfg : TorrentSettings)
    (sid : option string) (path_ method : string) (params : option Obj)
    (body : ReqBody) (headers : option Obj) (json : option bool) : HttpCall :=
  {| via := GotCall;
     url := request_url ext cfg path_;
     options := request_options cfg sid method (default [] params) body
                  (default [] headers) (default true json) |}.

(** A fresh instance that has sent nothing. *)
Definition start (options : PartialSettings) : Sys :=
  {| self := constructor options; wire := [] |}.

(** ** The mapping table of the specification

    The table as the specification words it, first match wins, for
    comparison with the chain of tests in [_normalizeTorrentData]. *)
Definition spec_state_table (raw : string) : TorrentState.t :=
  if String.eqb raw "uploading" || String.eqb raw "checkingUP"
  then TorrentState.seeding
  else if String.eqb raw "downloading" then TorrentState.downloading
  else if String.eqb raw "checkingDL" then TorrentState.checking
  else if String.eqb raw "error" || String.eqb raw "stalledDL"
  then TorrentState.error
  else if String.eqb raw "queuedDL" || String.eqb raw "queuedUP"
  then TorrentState.queued
  else if String.eqb raw "pausedDL" || String.eqb raw "pausedUP"
  then TorrentState.paused
  else TorrentState.unknown.

(** ** A scripted daemon, for running the methods on concrete inputs *)

Module Scripted.

Fixpoint strip_leading (s : string) : string :=
  match s with
  | String c s' => if Ascii.eqb c "/" then strip_leading s' else s
  | EmptyString => s
  end.

Fixpoint strip_trailing (s : string) : string :=
  match s with
  | EmptyString => ""
  | String c s' =>
      match strip_trailing s' with
      | EmptyString => if Ascii.eqb c "/" then "" else String c ""
      | r => String c r
      end
  end.

(** [url-join] on the inputs of this file: one slash between the parts. *)
Definition join_url (parts : list string) : string :=
  match parts with
  | [] => ""
  | p :: ps =>
      String.concat "/"
        (strip_trailing p :: map (fun q => strip_leading (strip_trailing q)) ps)
  end.

Fixpoint before (c : ascii) (s : string) : string :=
  match s with
  | EmptyString => ""
  | String a s' => if Ascii.eqb a c then "" else String a (before c s')
  end.

Fixpoint after (c : ascii) (s : string) : option string :=
  match s with
  | EmptyString => None
  | String a s' => if Ascii.eqb a c then Some s' else after c s'
  end.

(** The name-value pair of a [set-cookie] line, as [tough-cookie] splits
    it: the text before the first [;], cut at its first [=]; a pair
    without a name is no cookie. *)
Definition parse_cookie (line : string) : option Cookie :=
  let pair := before ";" line in
  match after "=" pair with
  | None => None
  | Some v =>
      if String.eqb (before "=" pair) "" then None
      else Some {| key := before "=" pair; cookie_value := v |}
  end.

(** A daemon that answers every login with the header [cookies], lists
    [listing] on the torrent list endpoint and answers [text] wherever a
    text body is expected. *)
Definition daemon (cookies : option (list string)) (listing : list Torrent)
    (text : string) : Externals :=
  {| urljoin := join_url;
     got_post := fun _ _ _ => Returned {| set_cookie := cookies; body := "Ok." |};
     got := fun T _ _ _ =>
              Returned {| set_cookie := None;
                          body := match T return Body T with
                                  | T_string => text
                                  | T_Torrents => listing
                                  | T_object => JRaw "{}"
                                  end |};
     Cookie_parse := parse_cookie;
     fs_existsSync := fun _ => false;
     fs_readFileSync := fun _ => Thrown (Error "ENOENT");
     Buffer_from_base64 := fun _ => [];
     form_getHeaders := fun _ =>
       [("content-type", VStr "multipart/form-data; boundary=x")] |}.

(** A raw record in the given state, progress and category. *)
Definition record (st : string) (p : Q) (cat : string) : Torrent :=
  {| hash := "c0ffee"; name := "ubuntu.iso"; state := st; progress := p;
     category := cat; added_on := 1552000000; completion_on := 1552000600;
     save_path := "/downloads"; upspeed := 0; dlspeed := 0; eta := 0;
     priority := 1; num_leechs := 0; num_seeds := 0; num_incomplete := 0;
     num_complete := 0; size := 1024; total_size := 1024; uploaded := 0;
     downloaded := 1024; ratio := 0 |}.

(** An instance with default settings whose session is [sid]. *)
Definition logged_in (sid : string) : Sys :=
  {| self := {| config := defaults; _sid := Some sid |}; wire := [] |}.

End Scripted.

(** The URL each operation calls on a daemon at the default address. *)
Definition called {A} (m : Externals -> M A) : list string :=
  map url (sent (m (Scripted.daemon None [] "Ok.")) (Scripted.logged_in "abc123")).

(** ** Vocabulary of the further properties *)

(** [o[k]] on an object literal: the value of the property, if it is there. *)
Fixpoint get_prop (k : string) (o : Obj) : option Val :=
  match o with
  | [] => None
  | (k', v) :: o' => if String.eqb k k' then Some v else get_prop k o'
  end.

(** A string without the separator of hash lists. *)
Fixpoint no_pipe (s : string) : bool :=
  match s with
  | EmptyString => true
  | String c s' => negb (Ascii.eqb c "|") && no_pipe s'
  end.

(** Both timestamps of a raw record are within the range of [Date]. *)
Definition valid_dates (torrent : Torrent) : Prop :=
  Z.abs (added_on torrent) <= 8640000000000
  /\ Z.abs (completion_on torrent) <= 8640000000000.

(** The category names that [labels[name]] can find without the loop having
    counted them: the members of [Object.prototype], the accessor
    [__proto__], and the three properties of a label record. *)
Definition reserved_key (k : string) : bool :=
  existsb (String.eqb k) (["__proto__"; "id"; "name"; "count"] ++ Object_prototype_keys).

(** The timeout the configuration makes the code pass on. *)
Definition passed_timeout (cfg : TorrentSettings) : option Z :=
  match timeout cfg with
  | Some n => if n =? 0 then None else Some n
  | None => None
  end.

(** What every outbound call takes from the configuration. *)
Definition call_follows_config (cfg : TorrentSettings) (c : HttpCall) : Prop :=
  o_retry (options c) = 0
  /\ o_agent (options c) = agent cfg
  /\ o_timeout (options c) = passed_timeout cfg
  /\ o_followRedirect (options c)
     = match via c with GotPost => Some false | GotCall => None end.

(** The label dictionary holds own properties under reserved names only. *)
Definition dict_reserved (d : LabelDict) : Prop :=
  forall k l, own d !! k = Some l -> reserved_key k = true.

(** A torrent whose category the loop of [getAllData] has to count afresh. *)
Definition ordinary_category (torrent : Torrent) : Prop :=
  category torrent <> "" /\ reserved_key (category torrent) = false.


(** A scripted daemon on a machine where every path names something that
    cannot be read as a file. *)
Definition unreadable_files (d : Externals) : Externals :=
  {| urljoin := urljoin d; got_post := got_post d; got := got d;
     Cookie_parse := Cookie_parse d;
     fs_existsSync := fun _ => true;
     fs_readFileSync := fun _ => Thrown (Error "EISDIR: illegal operation on a directory, read");
     Buffer_from_base64 := Buffer_from_base64 d;
     form_getHeaders := form_getHeaders d |}.

(** A daemon that cannot be reached: the transport throws on every call. *)
Definition unreachable (d : Externals) : Externals :=
  {| urljoin := urljoin d;
     got_post := fun _ _ _ => Thrown (TransportError "connect ECONNREFUSED");
     got := fun _ _ _ _ => Thrown (TransportError "connect ECONNREFUSED");
     Cookie_parse := Cookie_parse d;
     fs_existsSync := fs_existsSync d;
     fs_readFileSync := fs_readFileSync d;
     Buffer_from_base64 := Buffer_from_base64 d;
     form_getHeaders := form_getHeaders d |}.

(** * Properties *)

(** ** Dates *)

Example iso_epoch : Date.toISOString 0 = Returned "1970-01-01T00:00:00.000Z".
Proof. reflexivity. Qed.

Example iso_2019 :
  Date.toISOString (1552000000 * 1000) = Returned "2019-03-07T23:06:40.000Z".
Proof. reflexivity. Qed.

Example iso_before_epoch :
  Date.toISOString (-1 * 1000) = Returned "1969-12-31T23:59:59.000Z".
Proof. reflexivity. Qed.

Example iso_last :
  Date.toISOString Date.maxTime = Returned "+275760-09-13T00:00:00.000Z".
Proof. reflexivity. Qed.

Example iso_first :
  Date.toISOString (- Date.maxTime) = Returned "-271821-04-20T00:00:00.000Z".
Proof. reflexivity. Qed.

Example iso_leap_day :
  Date.toISOString (951782400 * 1000 + 7) = Returned "2000-02-29T00:00:00.007Z".
Proof. reflexivity. Qed.

Example iso_out_of_range :
  Date.toISOString (Date.maxTime + 1) = Thrown (RangeError "Invalid time value").
Proof. reflexivity. Qed.

Lemma toISOString_in_range ms :
  Z.abs ms <= Date.maxTime ->
  Date.toISOString ms = Returned (Date.render ms).
Proof.
  intros H. unfold Date.toISOString, Date.TimeClip.
  destruct (Z.leb_spec (Z.abs ms) Date.maxTime); [reflexivity | lia].
Qed.

Lemma toISOString_out_of_range ms :
  Date.maxTime < Z.abs ms ->
  Date.toISOString ms = Thrown (RangeError "Invalid time value").
Proof.
  intros H. unfold Date.toISOString, Date.TimeClip.
  destruct (Z.leb_spec (Z.abs ms) Date.maxTime); [lia | reflexivity].
Qed.

(** ** Hash normalization *)

Lemma string_app_cons (x : ascii) (a b : string) :
  String x a ++ b = String x (a ++ b).
Proof. reflexivity. Qed.

Lemma string_app_assoc (a b c : string) : (a ++ b) ++ c = a ++ (b ++ c).
Proof.
  induction a as [| x a IH]; [reflexivity |].
  now rewrite !string_app_cons, IH.
Qed.

Lemma string_app_empty_r (a : string) : a ++ "" = a.
Proof.
  induction a as [| x a IH]; [reflexivity |].
  now rewrite string_app_cons, IH.
Qed.

(** Once the first element is written, the loop appends the separator and
    the joined rest. *)
Lemma join_from_rest sep acc l :
  JS.join_from sep false acc l =
  acc ++ match l with
         | [] => ""
         | _ :: _ => sep ++ String.concat sep l
         end.
Proof.
  revert acc. induction l as [| x l IH]; intros acc; simpl.
  - now rewrite string_app_empty_r.
  - rewrite IH. destruct l as [| y l].
    + now rewrite string_app_empty_r, string_app_assoc.
    + now rewrite !string_app_assoc.
Qed.

Lemma join_concat sep l : JS.join sep l = String.concat sep l.
Proof.
  unfold JS.join. destruct l as [| x l]; simpl; [reflexivity |].
  rewrite join_from_rest. destruct l; simpl; [apply string_app_empty_r | reflexivity].
Qed.

(** C6: a list of hashes is normalized to its elements joined by "|" (so
    ["a","b"] gives "a|b" and ["a"] gives "a"), and a plain string, the
    literal "all" included, is returned unchanged. *)
Theorem normalizeHashes_spec :
  (forall l : list string, _normalizeHashes (inr l) = String.concat "|" l)
  /\ (forall s : string, _normalizeHashes (inl s) = s)
  /\ _normalizeHashes (inr ["a"; "b"]) = "a|b"
  /\ _normalizeHashes (inr ["a"]) = "a"
  /\ _normalizeHashes (inl "a") = "a"
  /\ _normalizeHashes (inl "all") = "all".
Proof.
  split; [| repeat split].
  intros l. simpl. apply join_concat.
Qed.

Example normalizeHashes_empty_list : _normalizeHashes (inr []) = "".
Proof. reflexivity. Qed.

(** ** State normalization *)

Lemma CheckingUP_truthy : JS.truthy_string qbtState.CheckingUP = true.
Proof. reflexivity. Qed.

(** The first test of the chain holds for every record, whatever its state. *)
Lemma normalized_state_seeding torrent :
  normalized_state torrent = TorrentState.seeding.
Proof.
  unfold normalized_state. rewrite CheckingUP_truthy, orb_true_r. reflexivity.
Qed.

(** When normalization returns, the record's state is the chain's result and
    its flag the comparison of the raw progress. *)
Lemma normalize_returned torrent n :
  _normalizeTorrentData torrent = Returned n ->
  Normalized.state n = normalized_state torrent
  /\ Normalized.isCompleted n = num_ge (progress torrent) (100 # 1)
  /\ Normalized.label n = category torrent.
Proof.
  unfold _normalizeTorrentData.
  destruct (Date.toISOString (added_on torrent * 1000)); [| discriminate].
  destruct (Date.toISOString (completion_on torrent * 1000)); [| discriminate].
  intros [= <-]. simpl. auto.
Qed.

(** Normalization returns exactly when both timestamps are valid dates. *)
Lemma normalize_total torrent :
  Z.abs (added_on torrent * 1000) <= Date.maxTime ->
  Z.abs (completion_on torrent * 1000) <= Date.maxTime ->
  exists n, _normalizeTorrentData torrent = Returned n.
Proof.
  intros Ha Hc. unfold _normalizeTorrentData.
  rewrite (toISOString_in_range _ Ha), (toISOString_in_range _ Hc). eauto.
Qed.

Lemma normalize_thrown torrent e :
  _normalizeTorrentData torrent = Thrown e ->
  e = RangeError "Invalid time value"
  /\ (Date.maxTime < Z.abs (added_on torrent * 1000)
      \/ Date.maxTime < Z.abs (completion_on torrent * 1000)).
Proof.
  unfold _normalizeTorrentData, Date.toISOString, Date.TimeClip.
  destruct (Z.leb_spec (Z.abs (added_on torrent * 1000)) Date.maxTime).
  - destruct (Z.leb_spec (Z.abs (completion_on torrent * 1000)) Date.maxTime).
    + discriminate.
    + intros [= <-]. auto.
  - intros [= <-]. auto.
Qed.

(** C1, at the record the code gets wrong: a raw record in state
    "downloading", which the table sends to downloading, is normalized to
    seeding; so is every record whose normalization returns. *)
Theorem normalize_downloading_gives_seeding :
  spec_state_table qbtState.Downloading = TorrentState.downloading
  /\ (exists n,
        _normalizeTorrentData (Scripted.record qbtState.Downloading 0 "") = Returned n
        /\ Normalized.state n = TorrentState.seeding)
  /\ (forall torrent,
        match _normalizeTorrentData torrent with
        | Returned n => Normalized.state n = TorrentState.seeding
        | Thrown e => exists msg, e = RangeError msg
        end).
Proof.
  split; [reflexivity | split].
  - eexists. split; [reflexivity | reflexivity].
  - intros torrent. destruct (_normalizeTorrentData torrent) as [n | e] eqn:E.
    + apply normalize_returned in E as [-> _]. apply normalized_state_seeding.
    + apply normalize_thrown in E as [-> _]. eauto.
Qed.

Example normalized_states_of_the_table :
  map (fun st => normalized_state (Scripted.record st 0 ""))
      ["uploading"; "checkingUP"; "downloading"; "checkingDL"; "error";
       "stalledDL"; "queuedDL"; "queuedUP"; "pausedDL"; "pausedUP"; "stalledUP"]
  = repeat TorrentState.seeding 11
  /\ map spec_state_table
      ["uploading"; "checkingUP"; "downloading"; "checkingDL"; "error";
       "stalledDL"; "queuedDL"; "queuedUP"; "pausedDL"; "pausedUP"; "stalledUP"]
  = [TorrentState.seeding; TorrentState.seeding; TorrentState.downloading;
     TorrentState.checking; TorrentState.error; TorrentState.error;
     TorrentState.queued; TorrentState.queued; TorrentState.paused;
     TorrentState.paused; TorrentState.unknown].
Proof. split; reflexivity. Qed.

(** C5: for every raw record, normalization either returns a record whose
    [isCompleted] flag is true exactly when the raw progress is at least 100
    (values above 100 included), or throws because a timestamp is not a
    valid date; it returns whenever both timestamps are valid. *)
Theorem isCompleted_iff_progress_ge_100 torrent :
  match _normalizeTorrentData torrent with
  | Returned n =>
      (Normalized.isCompleted n = true <-> (100 # 1 <= progress torrent)%Q)
  | Thrown e =>
      (exists msg, e = RangeError msg)
      /\ (Date.maxTime < Z.abs (added_on torrent * 1000)
          \/ Date.maxTime < Z.abs (completion_on torrent * 1000))
  end.
Proof.
  destruct (_normalizeTorrentData torrent) as [n | e] eqn:E.
  - apply normalize_returned in E as (_ & -> & _).
    unfold num_ge. apply Qle_bool_iff.
  - apply normalize_thrown in E as [-> H]. eauto.
Qed.

Example isCompleted_samples :
  map (fun p => match _normalizeTorrentData (Scripted.record "downloading" p "") with
                | Returned n => Some (Normalized.isCompleted n)
                | Thrown _ => None
                end)
      [0 # 1; 50 # 1; 99 # 1; 199 # 2; 100 # 1; 150 # 1]%Q
  = [Some false; Some false; Some false; Some false; Some true; Some true].
Proof. reflexivity. Qed.

(** ** The session manager *)

Lemma sent_app {A} (m : M A) (s : Sys) (l : list HttpCall) :
  wire (snd (m s)) = (wire s ++ l)%list -> sent m s = l.
Proof. unfold sent. intros ->. apply drop_app_length. Qed.

(** What [login] does, case by case on the transport's answer. *)
Lemma login_run ext s :
  let cfg := config (self s) in
  let s1 := {| self := self s; wire := wire s ++ [login_call ext cfg] |} in
  login ext s =
  match got_post ext (wire s) (login_url ext cfg) (login_options cfg) with
  | Thrown e => (Thrown e, s1)
  | Returned res =>
      match set_cookie res with
      | None => (Thrown (Error "Cookie not found. Auth Failed."), s1)
      | Some [] => (Thrown (Error "Cookie not found. Auth Failed."), s1)
      | Some (first :: _) =>
          match Cookie_parse ext first with
          | None => (Thrown (Error "Invalid cookie"), s1)
          | Some cookie =>
              if String.eqb (key cookie) "SID"
              then (Returned true,
                    {| self := {| config := cfg; _sid := Some (cookie_value cookie) |};
                       wire := wire s1 |})
              else (Thrown (Error "Invalid cookie"), s1)
          end
      end
  end.
Proof.
  unfold login, bind, this_config, send, throw, set_sid, ret, login_call. simpl.
  destruct (got_post ext _ _ _) as [res | e]; [| reflexivity].
  destruct (set_cookie res) as [[| first rest] |]; try reflexivity.
  destruct (Cookie_parse ext first) as [cookie |]; [| reflexivity].
  destruct (String.eqb (key cookie) "SID"); reflexivity.
Qed.

(** [login] never returns [false], sends exactly its one call and leaves the
    configuration alone. *)
Lemma login_effect ext s :
  wire (snd (login ext s)) = (wire s ++ [login_call ext (config (self s))])%list
  /\ config (self (snd (login ext s))) = config (self s)
  /\ (forall b, fst (login ext s) = Returned b -> b = true).
Proof.
  rewrite login_run. cbv zeta.
  destruct (got_post ext _ _ _) as [res | e]; simpl; [| now auto].
  destruct (set_cookie res) as [[| first rest] |]; simpl; try now auto.
  destruct (Cookie_parse ext first) as [cookie |]; simpl; [| now auto].
  destruct (String.eqb (key cookie) "SID"); simpl; [| now auto].
  repeat split. now intros b [= <-].
Qed.

(** C9: [logout] returns [true] in every state, leaves the instance without
    a session, sends nothing, and keeps the configuration as it was. *)
Theorem logout_clears_only_session s :
  logout s =
  (Returned true,
   {| self := {| config := config (self s); _sid := None |}; wire := wire s |})
  /\ sent logout s = [].
Proof.
  split; [reflexivity |]. apply sent_app. simpl. now rewrite app_nil_r.
Qed.

(** C3: when the login response has no set-cookie header (or an empty
    one), or its first cookie does not parse or is not named SID, [login]
    throws an error and the instance, its session included, is as before;
    the login call is the only call sent. *)
Theorem login_fails_without_session_cookie ext s res :
  got_post ext (wire s) (login_url ext (config (self s)))
    (login_options (config (self s))) = Returned res ->
  (set_cookie res = None
   \/ set_cookie res = Some []
   \/ exists first rest,
        set_cookie res = Some (first :: rest)
        /\ (Cookie_parse ext first = None
            \/ exists c, Cookie_parse ext first = Some c /\ key c <> "SID")) ->
  exists msg,
    login ext s =
    (Thrown (Error msg),
     {| self := self s; wire := wire s ++ [login_call ext (config (self s))] |})
    /\ (msg = "Cookie not found. Auth Failed." \/ msg = "Invalid cookie").
Proof.
  intros Hres Hbad. rewrite login_run. cbv zeta. rewrite Hres.
  destruct Hbad as [-> | [-> | (first & rest & -> & Hc)]]; [eauto | eauto |].
  destruct Hc as [-> | (c & -> & Hkey)]; [eauto |].
  destruct (String.eqb_spec (key c) "SID") as [E | _]; [contradiction | eauto].
Qed.

Lemma login_fails_without_session_cookie_witness :
  exists msg,
    login (Scripted.daemon None [] "Ok.") (start no_options) =
    (Thrown (Error msg),
     {| self := constructor no_options;
        wire := [login_call (Scripted.daemon None [] "Ok.") defaults] |})
    /\ (msg = "Cookie not found. Auth Failed." \/ msg = "Invalid cookie").
Proof.
  apply (login_fails_without_session_cookie (Scripted.daemon None [] "Ok.")
           (start no_options) {| set_cookie := None; body := "Ok." |}).
  - reflexivity.
  - left. reflexivity.
Defined.

Example login_rejects_other_cookie :
  fst (login (Scripted.daemon (Some ["lang=en; path=/"]) [] "Ok.") (start no_options))
  = Thrown (Error "Invalid cookie").
Proof. reflexivity. Qed.

Example login_stores_session :
  _sid (self (snd (login (Scripted.daemon (Some ["SID=abc123; HttpOnly; path=/"]) [] "Ok.")
                     (start no_options))))
  = Some "abc123".
Proof. reflexivity. Qed.

(** The gate of [request], as the calls it sends. *)
Lemma request_wire ext T path_ method params body headers json s :
  let cfg := config (self s) in
  wire (snd (request ext T path_ method params body headers json s)) =
  (wire s ++
   if JS.truthy_opt_string (_sid (self s))
   then [target_call ext cfg (_sid (self s)) path_ method params body headers json]
   else match login ext s with
        | (Returned _, s1) =>
            [login_call ext cfg;
             target_call ext cfg (_sid (self s1)) path_ method params body headers json]
        | (Thrown _, _) => [login_call ext cfg]
        end)%list.
Proof.
  cbv zeta. unfold request, bind, this_sid, this_config. simpl.
  destruct (JS.truthy_opt_string (_sid (self s))) eqn:Hsid; simpl.
  - reflexivity.
  - destruct (login_effect ext s) as (Hw & Hc & Hb).
    destruct (login ext s) as [[b | e] s1] eqn:Hl; simpl in *.
    + rewrite (Hb b eq_refl). simpl. rewrite Hw, Hc, <- app_assoc. reflexivity.
    + exact Hw.
Qed.

(** C2, as the code has it: [request] tests the stored session for truth.
    With a non-empty session stored it sends the target call alone, no login
    call; with no session, or the empty string, it sends exactly one login
    call first, and the target call after it when that login succeeds and
    nothing more when it throws. *)
Theorem request_session_gate ext T path_ method params body headers json s :
  sent (request ext T path_ method params body headers json) s =
    (if JS.truthy_opt_string (_sid (self s))
     then [target_call ext (config (self s)) (_sid (self s))
             path_ method params body headers json]
     else match login ext s with
          | (Returned _, s1) =>
              [login_call ext (config (self s));
               target_call ext (config (self s)) (_sid (self s1))
                 path_ method params body headers json]
          | (Thrown _, _) => [login_call ext (config (self s))]
          end)
  /\ login_calls (request ext T path_ method params body headers json) s =
     (if JS.truthy_opt_string (_sid (self s)) then 0 else 1)%nat.
Proof.
  assert (Hs := sent_app _ s _ (request_wire ext T path_ method params body headers json s)).
  split; [exact Hs |].
  unfold login_calls. rewrite Hs.
  destruct (JS.truthy_opt_string (_sid (self s))); [reflexivity |].
  destruct (login ext s) as [[b | e] s1]; reflexivity.
Qed.

(** C2 as stated fails: a login answered with the cookie [SID=] succeeds and
    stores the empty string, and the next [request] logs in once more. *)
Lemma request_after_empty_session_logs_in_again :
  exists s1,
    login (Scripted.daemon (Some ["SID=; path=/"]) [] "v4.1.5") (start no_options)
    = (Returned true, s1)
    /\ _sid (self s1) = Some ""
    /\ login_calls
         (request (Scripted.daemon (Some ["SID=; path=/"]) [] "v4.1.5")
            T_string "/app/version" "GET" None NoBody None (Some false)) s1
       = 1%nat
    /\ login_calls
         (request (Scripted.daemon (Some ["SID=; path=/"]) [] "v4.1.5")
            T_string "/app/version" "GET" None NoBody None (Some false)) s1
       <> 0%nat.
Proof.
  eexists. split; [reflexivity |]. split; [reflexivity |].
  split; [reflexivity | discriminate].
Qed.

Example request_logs_in_first :
  map url (sent (request (Scripted.daemon (Some ["SID=abc123"]) [] "v4.1.5")
                   T_string "/app/version" "GET" None NoBody None (Some false))
             (start no_options))
  = ["http://localhost:9091/api/v2/auth/login";
     "http://localhost:9091/api/v2/app/version"].
Proof. reflexivity. Qed.

Example request_reuses_session :
  map url (sent (request (Scripted.daemon (Some ["SID=abc123"]) [] "v4.1.5")
                   T_string "/app/version" "GET" None NoBody None (Some false))
             (Scripted.logged_in "abc123"))
  = ["http://localhost:9091/api/v2/app/version"].
Proof. reflexivity. Qed.

(** ** Endpoint operations *)

(** C4: when the request of an add-torrent call completes with a response,
    the call throws an error if the body is "Fails." and returns [true]
    otherwise. *)
Theorem addTorrent_checks_sentinel ext torrent filename options s form res s' :
  addTorrent_form ext torrent (default "torrent" filename) options = Returned form ->
  request ext T_string "/torrents/add" "POST" None (FormBody form)
    (Some (form_getHeaders ext form)) (Some false) s = (Returned res, s') ->
  addTorrent ext torrent filename options s =
  (if String.eqb (body res) "Fails."
   then Thrown (Error "Failed to add torrent")
   else Returned true, s').
Proof.
  intros Hform Hreq. unfold addTorrent, bind, lift. rewrite Hform, Hreq.
  destruct (String.eqb (body res) "Fails."); reflexivity.
Qed.

Lemma addTorrent_checks_sentinel_witness :
  fst (addTorrent (Scripted.daemon None [] "Fails.") (inr []) None None
         (Scripted.logged_in "abc123"))
  = Thrown (Error "Failed to add torrent").
Proof.
  set (ext := Scripted.daemon None [] "Fails.").
  pose (form := [{| field := "file"; value := FBuffer [];
                    append_options :=
                      Some {| contentType := "application/x-bittorrent";
                              filename := "torrent" |} |}]).
  pose (run := request ext T_string "/torrents/add" "POST" None (FormBody form)
                 (Some (form_getHeaders ext form)) (Some false)
                 (Scripted.logged_in "abc123")).
  rewrite (addTorrent_checks_sentinel ext (inr []) None None
             (Scripted.logged_in "abc123") form
             {| set_cookie := None; body := "Fails." |} (snd run)
             eq_refl eq_refl).
  reflexivity.
Defined.

Example addTorrent_accepted :
  fst (addTorrent (Scripted.daemon None [] "Ok.") (inl "ZDg6YW5ub3VuY2U=")
         (Some "a.torrent") (Some [("category", VStr "movies")])
         (Scripted.logged_in "abc123"))
  = Returned true.
Proof. reflexivity. Qed.

Lemma sent_then_ret {A B} (m : M A) (b : B) s :
  sent (m ;;; ret b) s = sent m s.
Proof.
  unfold sent, bind, ret. destruct (m s) as [[a | e] s1]; reflexivity.
Qed.

Lemma request_sent_logged_in ext T path_ method params body headers json s :
  JS.truthy_opt_string (_sid (self s)) = true ->
  sent (request ext T path_ method params body headers json) s =
  [target_call ext (config (self s)) (_sid (self s)) path_ method params body
     headers json].
Proof.
  intros H. apply sent_app. rewrite request_wire. cbv zeta. now rewrite H.
Qed.

(** C7, where the code departs from it: with a session in place,
    [removeTrackers] sends its one call to the URL of the daemon's
    edit-trackers endpoint, the very URL [editTrackers] calls. *)
Theorem removeTrackers_sends_to_editTrackers ext s hash urls origUrl newUrl :
  JS.truthy_opt_string (_sid (self s)) = true ->
  map url (sent (removeTrackers ext hash urls) s)
  = [request_url ext (config (self s)) "/torrents/editTrackers"]
  /\ map url (sent (editTrackers ext hash origUrl newUrl) s)
     = map url (sent (removeTrackers ext hash urls) s).
Proof.
  intros H. unfold removeTrackers, editTrackers.
  rewrite !sent_then_ret, !(request_sent_logged_in _ _ _ _ _ _ _ _ _ H).
  split; reflexivity.
Qed.

Lemma removeTrackers_sends_to_editTrackers_witness :
  map url (sent (removeTrackers (Scripted.daemon None [] "Ok.") "c0ffee"
                   "http://tracker.example/announce")
             (Scripted.logged_in "abc123"))
  = ["http://localhost:9091/api/v2/torrents/editTrackers"]
  /\ map url (sent (editTrackers (Scripted.daemon None [] "Ok.") "c0ffee"
                      "http://a.example/announce" "http://b.example/announce")
                (Scripted.logged_in "abc123"))
     = map url (sent (removeTrackers (Scripted.daemon None [] "Ok.") "c0ffee"
                        "http://tracker.example/announce")
                  (Scripted.logged_in "abc123")).
Proof.
  apply (removeTrackers_sends_to_editTrackers (Scripted.daemon None [] "Ok.")
           (Scripted.logged_in "abc123") "c0ffee"
           "http://tracker.example/announce"
           "http://a.example/announce" "http://b.example/announce").
  reflexivity.
Defined.

Example endpoint_table :
  [ called version;
    called (fun e => listTorrents e None None None);
    called (fun e => torrentProperties e "h");
    called (fun e => torrentTrackers e "h");
    called (fun e => torrentWebSeeds e "h");
    called (fun e => torrentFiles e "h");
    called (fun e => setFilePriority e "h" (inl "0") 1);
    called (fun e => torrentPieceStates e "h");
    called (fun e => torrentPieceHashes e "h");
    called (fun e => setTorrentLocation e (inl "h") "/data");
    called (fun e => setTorrentName e (inl "h") "n");
    called (fun e => createCategory e "c");
    called (fun e => removeCategory e "c");
    called (fun e => setTorrentCategory e (inl "h") "c");
    called (fun e => pauseTorrent e (inl "h"));
    called (fun e => resumeTorrent e (inl "h"));
    called (fun e => removeTorrent e (inl "h") None);
    called (fun e => recheckTorrent e (inl "h"));
    called (fun e => reannounceTorrent e (inl "h"));
    called (fun e => addTorrent e (inr []) None None);
    called (fun e => addTrackers e "h" "u");
    called (fun e => editTrackers e "h" "u" "v");
    called (fun e => removeTrackers e "h" "u");
    called (fun e => queueUp e (inl "h"));
    called (fun e => queueDown e (inl "h"));
    called (fun e => topPriority e (inl "h"));
    called (fun e => bottomPriority e (inl "h")) ]
  = map (fun p => ["http://localhost:9091/api/v2" ++ p])
      [ "/app/version"; "/torrents/info"; "/torrents/properties";
        "/torrents/trackers"; "/torrents/webseeds"; "/torrents/files";
        "/torrents/filePrio"; "/torrents/pieceStates"; "/torrents/pieceHashes";
        "/torrents/setLocation"; "/torrents/rename"; "/torrents/createCategory";
        "/torrents/removeCategories"; "/torrents/setCategory"; "/torrents/pause";
        "/torrents/resume"; "/torrents/delete"; "/torrents/recheck";
        "/torrents/reannounce"; "/torrents/add"; "/torrents/addTrackers";
        "/torrents/editTrackers"; "/torrents/editTrackers";
        "/torrents/increasePrio"; "/torrents/decreasePrio"; "/torrents/topPrio";
        "/torrents/bottomPrio" ].
Proof. reflexivity. Qed.

(** C8: once the list lookup for the hash has returned, [getTorrent] throws
    the plain error "Torrent not found" when the list is empty, and otherwise
    gives the normalization of the first record. *)
Theorem getTorrent_first_or_error ext hash s l s' :
  listTorrents ext (Some (inl hash)) None None s = (Returned l, s') ->
  getTorrent ext hash s =
  (match l with
   | [] => Thrown (Error "Torrent not found")
   | torrentData :: _ => _normalizeTorrentData torrentData
   end, s').
Proof.
  intros H. unfold getTorrent, bind. rewrite H.
  destruct l as [| torrentData rest]; reflexivity.
Qed.

Lemma getTorrent_first_or_error_witness :
  fst (getTorrent (Scripted.daemon None [] "Ok.") "c0ffee"
         (Scripted.logged_in "abc123"))
  = Thrown (Error "Torrent not found").
Proof.
  set (ext := Scripted.daemon None [] "Ok.").
  rewrite (getTorrent_first_or_error ext "c0ffee" (Scripted.logged_in "abc123") []
             (snd (listTorrents ext (Some (inl "c0ffee")) None None
                     (Scripted.logged_in "abc123")))
             eq_refl).
  reflexivity.
Defined.

Example getTorrent_found :
  match fst (getTorrent
               (Scripted.daemon None
                  [Scripted.record "pausedUP" (100 # 1) "movies";
                   Scripted.record "downloading" (50 # 1) ""] "Ok.")
               "c0ffee" (Scripted.logged_in "abc123")) with
  | Returned n =>
      Some (Normalized.id n, Normalized.isCompleted n, Normalized.dateAdded n)
  | Thrown _ => None
  end
  = Some ("c0ffee", true, "2019-03-07T23:06:40.000Z").
Proof. reflexivity. Qed.

(** ** Label aggregation *)

(** The loop never writes [results.labels]. *)
Lemma getAllData_loop_labels l : forall results labels_ out,
  getAllData_loop l results labels_ = Returned out ->
  labels out = labels results.
Proof.
  induction l as [| torrent rest IH]; intros results labels_ out; simpl.
  - now intros [= <-].
  - destruct (_normalizeTorrentData torrent) as [torrentData | e]; [| discriminate].
    destruct (JS.truthy_string (Normalized.label torrentData)).
    + destruct (truthy_val (dict_get labels_ (Normalized.label torrentData)));
        [| discriminate].
      intros H. now apply IH in H.
    + intros H. now apply IH in H.
Qed.

(** A first record with valid dates and a category that is not a member
    name of [Object.prototype] makes the loop throw. *)
Lemma getAllData_loop_first_label torrent rest results :
  Z.abs (added_on torrent * 1000) <= Date.maxTime ->
  Z.abs (completion_on torrent * 1000) <= Date.maxTime ->
  category torrent <> "" ->
  dict_get empty_dict (category torrent) = PUndefined ->
  getAllData_loop (torrent :: rest) results empty_dict
  = Thrown (TypeError "Cannot read property 'count' of undefined").
Proof.
  intros Ha Hc Hne Hget. simpl.
  destruct (normalize_total torrent Ha Hc) as [n Hn]. rewrite Hn.
  apply normalize_returned in Hn as (_ & _ & ->).
  unfold JS.truthy_string.
  destruct (String.eqb_spec (category torrent) "") as [E | _]; [contradiction |].
  simpl. now rewrite Hget.
Qed.

(** C10, where the code departs from it: for a list of one torrent in the
    category "movies", where one label entry with count 1 is due,
    [getAllData] throws a TypeError; and whenever the loop does return, the
    label list it returns is empty. *)
Theorem getAllData_throws_on_first_category :
  (exists msg,
     fst (getAllData
            (Scripted.daemon None [Scripted.record "uploading" (100 # 1) "movies"] "Ok.")
            (Scripted.logged_in "abc123"))
     = Thrown (TypeError msg))
  /\ (forall l,
        match getAllData_loop l {| torrents := []; labels := [] |} empty_dict with
        | Returned out => labels out = []
        | Thrown _ => True
        end).
Proof.
  split; [eexists; reflexivity |].
  intros l.
  destruct (getAllData_loop l _ _) as [out | e] eqn:E; [| exact I].
  now apply getAllData_loop_labels in E.
Qed.

Example getAllData_without_categories :
  match fst (getAllData
               (Scripted.daemon None
                  [Scripted.record "uploading" (100 # 1) "";
                   Scripted.record "downloading" (50 # 1) ""] "Ok.")
               (Scripted.logged_in "abc123")) with
  | Returned out => Some (length (torrents out), labels out)
  | Thrown _ => None
  end
  = Some (2%nat, []).
Proof. reflexivity. Qed.

Example getAllData_inherited_key :
  match fst (getAllData
               (Scripted.daemon None
                  [Scripted.record "uploading" (100 # 1) "constructor";
                   Scripted.record "uploading" (100 # 1) "constructor"] "Ok.")
               (Scripted.logged_in "abc123")) with
  | Returned out => Some (length (torrents out), labels out)
  | Thrown _ => None
  end
  = Some (2%nat, []).
Proof. vm_compute. reflexivity. Qed.

(** * Further properties of the session manager *)

(** A login answered with a first cookie named SID returns [true], stores
    that cookie's value as the session whatever was stored before, keeps the
    configuration and sends the login call alone. *)
Theorem login_stores_cookie_value ext s res first rest c :
  got_post ext (wire s) (login_url ext (config (self s)))
    (login_options (config (self s))) = Returned res ->
  set_cookie res = Some (first :: rest) ->
  Cookie_parse ext first = Some c ->
  key c = "SID" ->
  login ext s =
  (Returned true,
   {| self := {| config := config (self s); _sid := Some (cookie_value c) |};
      wire := wire s ++ [login_call ext (config (self s))] |}).
Proof.
  intros Hres Hset Hparse Hkey. rewrite login_run. cbv zeta.
  rewrite Hres, Hset, Hparse, Hkey. reflexivity.
Qed.

Lemma login_stores_cookie_value_witness :
  login (Scripted.daemon (Some ["SID=abc123; HttpOnly"; "lang=en"]) [] "Ok.")
    (Scripted.logged_in "stale")
  = (Returned true,
     {| self := {| config := defaults; _sid := Some "abc123" |};
        wire := [login_call (Scripted.daemon (Some ["SID=abc123; HttpOnly"; "lang=en"]) [] "Ok.")
                   defaults] |}).
Proof.
  apply (login_stores_cookie_value
           (Scripted.daemon (Some ["SID=abc123; HttpOnly"; "lang=en"]) [] "Ok.")
           (Scripted.logged_in "stale")
           {| set_cookie := Some ["SID=abc123; HttpOnly"; "lang=en"]; body := "Ok." |}
           "SID=abc123; HttpOnly" ["lang=en"]
           {| key := "SID"; cookie_value := "abc123" |});
    reflexivity.
Defined.

(** Only the first cookie of the header is looked at: a session cookie that
    comes second is not found, and the login throws. *)
Example login_ignores_later_cookies :
  fst (login (Scripted.daemon (Some ["lang=en"; "SID=abc123"]) [] "Ok.")
         (start no_options))
  = Thrown (Error "Invalid cookie").
Proof. reflexivity. Qed.

(** What the transport throws on the login call is what [login] throws, and
    the instance is left as it was. *)
Theorem login_propagates_transport_error ext s e :
  got_post ext (wire s) (login_url ext (config (self s)))
    (login_options (config (self s))) = Thrown e ->
  login ext s =
  (Thrown e,
   {| self := self s; wire := wire s ++ [login_call ext (config (self s))] |}).
Proof.
  intros Hres. rewrite login_run. cbv zeta. now rewrite Hres.
Qed.

Lemma login_propagates_transport_error_witness :
  login (unreachable (Scripted.daemon None [] "Ok.")) (Scripted.logged_in "abc123")
  = (Thrown (TransportError "connect ECONNREFUSED"),
     {| self := {| config := defaults; _sid := Some "abc123" |};
        wire := [login_call (unreachable (Scripted.daemon None [] "Ok.")) defaults] |}).
Proof.
  apply (login_propagates_transport_error
           (unreachable (Scripted.daemon None [] "Ok.")) (Scripted.logged_in "abc123")).
  reflexivity.
Defined.

(** [request], with the test on [authed] resolved: the outcome is the
    transport's answer to the target call, or what [login] threw. *)
Lemma request_run ext T path_ method params body headers json s :
  request ext T path_ method params body headers json s =
  if JS.truthy_opt_string (_sid (self s))
  then (got ext T (wire s) (request_url ext (config (self s)) path_)
          (request_options (config (self s)) (_sid (self s)) method
             (default [] params) body (default [] headers) (default true json)),
        {| self := self s;
           wire := wire s ++ [target_call ext (config (self s)) (_sid (self s))
                                path_ method params body headers json] |})
  else match login ext s with
       | (Returned _, s1) =>
           (got ext T (wire s1) (request_url ext (config (self s)) path_)
              (request_options (config (self s)) (_sid (self s1)) method
                 (default [] params) body (default [] headers) (default true json)),
            {| self := self s1;
               wire := wire s1 ++ [target_call ext (config (self s)) (_sid (self s1))
                                     path_ method params body headers json] |})
       | (Thrown e, s1) => (Thrown e, s1)
       end.
Proof.
  unfold request, bind, this_sid, this_config. simpl.
  destruct (JS.truthy_opt_string (_sid (self s))) eqn:Hsid; simpl.
  - reflexivity.
  - destruct (login_effect ext s) as (Hw & Hc & Hb).
    destruct (login ext s) as [[b | e] s1] eqn:Hl; simpl in *.
    + rewrite (Hb b eq_refl). simpl. rewrite Hc. reflexivity.
    + reflexivity.
Qed.



(** [request] never touches the configuration; with a non-empty session it
    leaves the whole instance as it is, and otherwise the instance is what
    [login] made of it. *)
Theorem request_frame ext T path_ method params body headers json s :
  config (self (snd (request ext T path_ method params body headers json s)))
  = config (self s)
  /\ self (snd (request ext T path_ method params body headers json s))
     = if JS.truthy_opt_string (_sid (self s)) then self s
       else self (snd (login ext s)).
Proof.
  rewrite request_run.
  destruct (JS.truthy_opt_string (_sid (self s))); simpl; [now split |].
  destruct (login_effect ext s) as (_ & Hc & _).
  destruct (login ext s) as [[b | e] s1]; simpl in *; now split.
Qed.

(** Two requests in a row on an instance without a session, when the daemon
    hands out the non-empty session [v]: the first sends the login call and
    then its target, the second sends its target alone, and both targets
    carry the session [v]. *)
Theorem second_request_reuses_session
    ext s res first rest c
    T1 path1 method1 params1 body1 headers1 json1
    T2 path2 method2 params2 body2 headers2 json2 :
  JS.truthy_opt_string (_sid (self s)) = false ->
  got_post ext (wire s) (login_url ext (config (self s)))
    (login_options (config (self s))) = Returned res ->
  set_cookie res = Some (first :: rest) ->
  Cookie_parse ext first = Some c ->
  key c = "SID" ->
  cookie_value c <> "" ->
  let s1 := snd (request ext T1 path1 method1 params1 body1 headers1 json1 s) in
  sent (request ext T1 path1 method1 params1 body1 headers1 json1) s
  = [login_call ext (config (self s));
     target_call ext (config (self s)) (Some (cookie_value c))
       path1 method1 params1 body1 headers1 json1]
  /\ sent (request ext T2 path2 method2 params2 body2 headers2 json2) s1
     = [target_call ext (config (self s)) (Some (cookie_value c))
          path2 method2 params2 body2 headers2 json2].
Proof.
  intros Hsid Hres Hset Hparse Hkey Hne s1.
  pose proof (Hlogin := login_run ext s).
  cbv zeta in Hlogin.
  rewrite Hres, Hset, Hparse, Hkey in Hlogin.
  simpl in Hlogin.
  assert (Hs1 : self s1 = {| config := config (self s); _sid := Some (cookie_value c) |}).
  { subst s1. rewrite request_run, Hsid, Hlogin. reflexivity. }
  split.
  - apply sent_app. rewrite request_wire. cbv zeta.
    rewrite Hsid, Hlogin. reflexivity.
  - rewrite request_sent_logged_in; rewrite Hs1; simpl.
    + reflexivity.
    + unfold JS.truthy_string.
      destruct (String.eqb_spec (cookie_value c) ""); [contradiction | reflexivity].
Qed.

Lemma second_request_reuses_session_witness :
  map url
    (sent (request (Scripted.daemon (Some ["SID=abc123"]) [] "v4.1.5")
             T_string "/app/version" "GET" None NoBody None (Some false))
       (start no_options))
  = ["http://localhost:9091/api/v2/auth/login";
     "http://localhost:9091/api/v2/app/version"]
  /\ map url
       (sent (request (Scripted.daemon (Some ["SID=abc123"]) [] "v4.1.5")
                T_Torrents "/torrents/info" "GET" None NoBody None None)
          (snd (request (Scripted.daemon (Some ["SID=abc123"]) [] "v4.1.5")
                  T_string "/app/version" "GET" None NoBody None (Some false)
                  (start no_options))))
     = ["http://localhost:9091/api/v2/torrents/info"].
Proof.
  destruct (second_request_reuses_session
              (Scripted.daemon (Some ["SID=abc123"]) [] "v4.1.5")
              (start no_options)
              {| set_cookie := Some ["SID=abc123"]; body := "Ok." |}
              "SID=abc123" [] {| key := "SID"; cookie_value := "abc123" |}
              T_string "/app/version" "GET" None NoBody None (Some false)
              T_Torrents "/torrents/info" "GET" None NoBody None None
              eq_refl eq_refl eq_refl eq_refl eq_refl ltac:(discriminate))
    as [H1 H2].
  split.
  - rewrite H1. reflexivity.
  - rewrite H2. reflexivity.
Defined.

(** After [logout], the next [request] logs in again: it sends exactly one
    login call, whatever session was stored before. *)
Theorem request_after_logout_logs_in ext T path_ method params body headers json s :
  login_calls (request ext T path_ method params body headers json)
    (snd (logout s)) = 1%nat
  /\ hd_error (sent (request ext T path_ method params body headers json)
                 (snd (logout s)))
     = Some (login_call ext (config (self s))).
Proof.
  assert (Hs := sent_app _ _ _
                  (request_wire ext T path_ method params body headers json
                     (snd (logout s)))).
  unfold login_calls. rewrite Hs. simpl.
  destruct (login ext _) as [[b | e] s1]; split; reflexivity.
Qed.

(** ** What every outbound call carries *)

Lemma apply_config_fields cfg o :
  o_retry (apply_config cfg o) = o_retry o
  /\ o_followRedirect (apply_config cfg o) = o_followRedirect o
  /\ o_headers (apply_config cfg o) = o_headers o
  /\ o_agent (apply_config cfg o)
     = match agent cfg with Some a => Some a | None => o_agent o end
  /\ o_timeout (apply_config cfg o)
     = match passed_timeout cfg with Some n => Some n | None => o_timeout o end.
Proof.
  unfold apply_config, passed_timeout, JS.truthy_number.
  destruct (agent cfg) as [a |]; destruct (timeout cfg) as [n |];
    try destruct (n =? 0); simpl; repeat split; reflexivity.
Qed.

Lemma login_call_follows_config ext cfg : call_follows_config cfg (login_call ext cfg).
Proof.
  unfold call_follows_config, login_call, login_options. simpl.
  destruct (apply_config_fields cfg
              {| o_method := None; o_headers := None; o_retry := 0; o_json := None;
                 o_form := Some true;
                 o_body := ObjBody [("username", VStr (username cfg));
                                    ("password", VStr (password cfg))];
                 o_query := None; o_followRedirect := Some false;
                 o_agent := None; o_timeout := None |})
    as (-> & -> & _ & -> & ->). simpl.
  destruct (agent cfg); destruct (passed_timeout cfg); repeat split; reflexivity.
Qed.

Lemma target_call_follows_config ext cfg sid path_ method params body headers json :
  call_follows_config cfg
    (target_call ext cfg sid path_ method params body headers json).
Proof.
  unfold call_follows_config, target_call, request_options. simpl.
  match goal with
  | |- context [apply_config cfg ?o] =>
      destruct (apply_config_fields cfg o) as (-> & -> & _ & -> & ->)
  end. simpl.
  destruct (agent cfg); destruct (passed_timeout cfg); repeat split; reflexivity.
Qed.

(** Every call [request] sends, the login call included, disables retries,
    hands the configured proxy agent on, and carries the configured timeout
    unless that is zero or missing, in which case no timeout is set at all;
    only the login call forbids redirects. *)
Theorem request_calls_follow_config ext T path_ method params body headers json s :
  Forall (call_follows_config (config (self s)))
    (sent (request ext T path_ method params body headers json) s).
Proof.
  rewrite (sent_app _ _ _ (request_wire ext T path_ method params body headers json s)).
  destruct (JS.truthy_opt_string (_sid (self s))).
  - repeat constructor; apply target_call_follows_config.
  - destruct (login ext s) as [[b | e] s1]; repeat constructor;
      first [apply login_call_follows_config | apply target_call_follows_config].
Qed.

Example zero_timeout_is_not_passed :
  map (fun c => o_timeout (options c))
    (sent (request (Scripted.daemon (Some ["SID=abc123"]) [] "v4.1.5")
             T_string "/app/version" "GET" None NoBody None (Some false))
       (start {| opt_baseUrl := None; opt_path := None; opt_username := None;
                 opt_password := None; opt_timeout := Some 0; opt_agent := None |}))
  = [None; None].
Proof. reflexivity. Qed.


(** ** Headers *)

Lemma get_prop_set_prop k k' v o :
  get_prop k (JS.set_prop k' v o) = if String.eqb k k' then Some v else get_prop k o.
Proof.
  induction o as [| [k0 v0] o IH]; simpl.
  - reflexivity.
  - destruct (String.eqb_spec k' k0) as [-> | Hne]; simpl.
    + destruct (String.eqb k k0); reflexivity.
    + rewrite IH. destruct (String.eqb_spec k k0) as [-> | _]; [| reflexivity].
      destruct (String.eqb_spec k0 k') as [E | _]; [congruence | reflexivity].
Qed.

Lemma get_prop_app k a b :
  get_prop k (a ++ b)%list
  = match get_prop k a with Some v => Some v | None => get_prop k b end.
Proof.
  induction a as [| [k0 v0] a IH]; simpl; [reflexivity |].
  destruct (String.eqb k k0); [reflexivity | exact IH].
Qed.

(** In [{...a, ...b}] a property of [b] wins over one of [a]. *)
Lemma get_prop_spread k b : forall a,
  get_prop k (JS.spread a b)
  = match get_prop k (rev b) with Some v => Some v | None => get_prop k a end.
Proof.
  unfold JS.spread. induction b as [| [k0 v0] b IH]; intros a; simpl.
  - reflexivity.
  - rewrite IH, get_prop_app, get_prop_set_prop. simpl.
    destruct (get_prop k (rev b)); [reflexivity |].
    destruct (String.eqb k k0); reflexivity.
Qed.

(** The headers of a target call: every header the caller passes goes out
    with the caller's value, a [Cookie] of the caller's replacing the session
    cookie; without one the [Cookie] header is "SID=" and the session, and no
    other header is added. *)
Theorem request_headers_merge ext cfg v path_ method params body headers json :
  exists hs,
    o_headers (options (target_call ext cfg (Some v) path_ method params body headers json))
    = Some hs
    /\ forall k,
         get_prop k hs
         = match get_prop k (rev (default [] headers)) with
           | Some x => Some x
           | None => if String.eqb k "Cookie" then Some (VStr ("SID=" ++ v)) else None
           end.
Proof.
  unfold target_call, request_options. simpl.
  match goal with
  | |- context [apply_config cfg ?o] =>
      destruct (apply_config_fields cfg o) as (_ & _ & -> & _)
  end. simpl.
  eexists. split; [reflexivity |].
  intros k. rewrite get_prop_spread. simpl.
  destruct (get_prop k (rev (default [] headers))); reflexivity.
Qed.

Example caller_cookie_replaces_session :
  map (fun c => o_headers (options c))
    (sent (request (Scripted.daemon None [] "v4.1.5") T_string "/app/version" "GET"
             None NoBody (Some [("Cookie", VStr "lang=en"); ("X-Id", VStr "7")])
             (Some false))
       (Scripted.logged_in "abc123"))
  = [Some [("Cookie", VStr "lang=en"); ("X-Id", VStr "7")]].
Proof. reflexivity. Qed.

(** * Further properties of the normalizers *)

(** Normalization returns a record exactly when both timestamps are at most
    8,640,000,000,000 seconds from the epoch; beyond that a date is invalid
    and the call throws. *)
Theorem normalize_returns_iff_valid_dates torrent :
  (exists n, _normalizeTorrentData torrent = Returned n) <-> valid_dates torrent.
Proof.
  unfold valid_dates. split.
  - intros [n Hn].
    destruct (Z_le_gt_dec (Z.abs (added_on torrent)) 8640000000000) as [Ha | Ha];
      [destruct (Z_le_gt_dec (Z.abs (completion_on torrent)) 8640000000000)
         as [Hc | Hc]; [now split |] |].
    + unfold _normalizeTorrentData in Hn.
      rewrite (toISOString_out_of_range (completion_on torrent * 1000)) in Hn
        by (unfold Date.maxTime; lia).
      destruct (Date.toISOString (added_on torrent * 1000)); discriminate.
    + unfold _normalizeTorrentData in Hn.
      rewrite (toISOString_out_of_range (added_on torrent * 1000)) in Hn
        by (unfold Date.maxTime; lia).
      discriminate.
  - intros [Ha Hc]. apply normalize_total; unfold Date.maxTime; lia.
Qed.

Lemma concat_cons sep x l :
  String.concat sep (x :: l)
  = x ++ match l with
         | [] => ""
         | _ :: _ => sep ++ String.concat sep l
         end.
Proof. destruct l; simpl; [now rewrite string_app_empty_r | reflexivity]. Qed.

(** Two pipe-free strings followed by nothing or by a pipe: equal wholes have
    equal parts. *)
Lemma pipe_free_prefix a : forall a' r r',
  no_pipe a = true -> no_pipe a' = true ->
  (r = "" \/ exists t, r = String "|" t) ->
  (r' = "" \/ exists t, r' = String "|" t) ->
  a ++ r = a' ++ r' -> a = a' /\ r = r'.
Proof.
  induction a as [| c a IH]; intros [| c' a'] r r' Ha Ha' Hr Hr' E.
  - now split.
  - exfalso. change ("" ++ r) with r in E. rewrite string_app_cons in E.
    simpl in Ha'. apply andb_prop in Ha' as [Hc' _].
    destruct Hr as [-> | [t ->]]; [discriminate |].
    injection E as <- _. discriminate.
  - exfalso. change ("" ++ r') with r' in E. rewrite string_app_cons in E.
    simpl in Ha. apply andb_prop in Ha as [Hc _].
    destruct Hr' as [-> | [t ->]]; [discriminate |].
    injection E as -> _. discriminate.
  - rewrite !string_app_cons in E. injection E as -> E.
    simpl in Ha, Ha'. apply andb_prop in Ha as [_ Ha]. apply andb_prop in Ha' as [_ Ha'].
    destruct (IH a' r r' Ha Ha' Hr Hr' E) as [-> ->]. now split.
Qed.

Lemma concat_pipe_injective l1 : forall l2,
  l1 <> [] -> l2 <> [] ->
  Forall (fun h => no_pipe h = true) l1 ->
  Forall (fun h => no_pipe h = true) l2 ->
  String.concat "|" l1 = String.concat "|" l2 -> l1 = l2.
Proof.
  induction l1 as [| x l1 IH]; intros [| y l2] H1 H2 F1 F2 E; try congruence.
  rewrite !concat_cons in E.
  apply Forall_cons_1 in F1 as [Hx F1]. apply Forall_cons_1 in F2 as [Hy F2].
  apply pipe_free_prefix in E as [-> E]; try assumption.
  - f_equal. destruct l1 as [| x' l1]; destruct l2 as [| y' l2];
      try reflexivity; try discriminate.
    apply IH; try assumption; try discriminate.
    rewrite !string_app_cons in E. now injection E.
  - destruct l1; [now left | right; eauto].
  - destruct l2; [now left | right; eauto].
Qed.

(** The pipe-delimited form is unambiguous on what hash lists hold: two
    non-empty lists of strings without "|" with the same normalized form are
    the same list. *)
Theorem normalizeHashes_injective l1 l2 :
  l1 <> [] -> l2 <> [] ->
  Forall (fun h => no_pipe h = true) l1 ->
  Forall (fun h => no_pipe h = true) l2 ->
  _normalizeHashes (inr l1) = _normalizeHashes (inr l2) -> l1 = l2.
Proof.
  intros H1 H2 F1 F2 E. simpl in E. rewrite !join_concat in E.
  now apply concat_pipe_injective.
Qed.

Lemma normalizeHashes_injective_witness : ["c0ffee"; "beef"] = ["c0ffee"; "beef"].
Proof.
  apply (normalizeHashes_injective ["c0ffee"; "beef"] ["c0ffee"; "beef"]).
  - discriminate.
  - discriminate.
  - repeat constructor.
  - repeat constructor.
  - reflexivity.
Defined.

(** Outside those bounds the form does collide. *)
Example normalizeHashes_collisions :
  _normalizeHashes (inr []) = _normalizeHashes (inr [""])
  /\ _normalizeHashes (inr ["a|b"]) = _normalizeHashes (inr ["a"; "b"])
  /\ _normalizeHashes (inr ["all"]) = _normalizeHashes (inl "all").
Proof. repeat split. Qed.

(** * Further properties of the endpoint operations *)

(** A computation whose continuation neither sends nor stores anything sends
    what its first part sends. *)
Lemma sent_bind_silent {A B} (m : M A) (k : A -> M B) s :
  (forall a s', snd (k a s') = s') ->
  sent (bind m k) s = sent m s.
Proof.
  intros Hk. unfold sent, bind.
  destruct (m s) as [[a | e] s1]; simpl; [now rewrite Hk | reflexivity].
Qed.

(** [listTorrents] takes an empty string for absent: an empty hash, filter
    or category lists as if the argument had been left out, so a category of
    "" asks for torrents of any category; and [getTorrent] on the empty hash
    looks up the first torrent of the whole list. *)
Theorem listTorrents_empty_string_is_absent ext hashes filter category s :
  listTorrents ext (Some (inl "")) filter category s
  = listTorrents ext None filter category s
  /\ listTorrents ext hashes (Some "") category s
     = listTorrents ext hashes None category s
  /\ listTorrents ext hashes filter (Some "") s
     = listTorrents ext hashes filter None s
  /\ sent (getTorrent ext "") s = sent (listTorrents ext None None None) s.
Proof.
  repeat split. unfold getTorrent. apply sent_bind_silent.
  intros l s'. destruct (l !! 0%nat); reflexivity.
Qed.

Example getTorrent_empty_hash :
  map (fun c => o_query (options c))
    (sent (getTorrent (Scripted.daemon None [] "Ok.") "") (Scripted.logged_in "abc123"))
  = [Some []].
Proof. reflexivity. Qed.

(** An empty array of hashes, unlike an empty string, is sent: the query
    carries [hashes] with the empty text. *)
Example listTorrents_empty_array :
  map (fun c => o_query (options c))
    (sent (listTorrents (Scripted.daemon None [] "Ok.") (Some (inr [])) None None)
       (Scripted.logged_in "abc123"))
  = [Some [("hashes", VStr "")]].
Proof. reflexivity. Qed.

(** The operations on a hash set ([pauseTorrent], [resumeTorrent],
    [recheckTorrent], [reannounceTorrent], [queueUp], [queueDown],
    [topPriority], [bottomPriority]) send, with a session in place, one GET
    for the whole set, its only parameter the pipe-joined hashes; they return
    [true] whatever the daemon answers and throw what the transport throws. *)
Theorem hashes_call_single_get ext path_ hashes s :
  JS.truthy_opt_string (_sid (self s)) = true ->
  let call :=
    target_call ext (config (self s)) (_sid (self s)) path_ "GET"
      (Some [("hashes", VStr (_normalizeHashes hashes))]) NoBody None None in
  hashes_call ext path_ hashes s =
  (match got ext T_object (wire s) (url call) (options call) with
   | Returned _ => Returned true
   | Thrown e => Thrown e
   end,
   {| self := self s; wire := wire s ++ [call] |}).
Proof.
  intros H call. unfold hashes_call, bind, ret. rewrite request_run, H.
  subst call. simpl. destruct (got ext T_object _ _ _); reflexivity.
Qed.

Lemma hashes_call_single_get_witness :
  fst (pauseTorrent (Scripted.daemon None [] "Ok.") (inr ["c0ffee"; "beef"])
         (Scripted.logged_in "abc123")) = Returned true
  /\ map (fun c => (o_method (options c), url c, o_query (options c)))
       (wire (snd (pauseTorrent (Scripted.daemon None [] "Ok.") (inr ["c0ffee"; "beef"])
                     (Scripted.logged_in "abc123"))))
     = [(Some "GET", "http://localhost:9091/api/v2/torrents/pause",
         Some [("hashes", VStr "c0ffee|beef")])].
Proof.
  unfold pauseTorrent.
  rewrite (hashes_call_single_get (Scripted.daemon None [] "Ok.") "/torrents/pause"
             (inr ["c0ffee"; "beef"]) (Scripted.logged_in "abc123") eq_refl).
  split; reflexivity.
Defined.

(** When the string handed to [addTorrent] names something that exists but
    cannot be read, the exception of the read is thrown before anything is
    sent: no login, no upload, and the instance is as before. *)
Theorem addTorrent_unreadable_file_sends_nothing ext torrent filename options s e :
  fs_existsSync ext torrent = true ->
  fs_readFileSync ext torrent = Thrown e ->
  addTorrent ext (inl torrent) filename options s = (Thrown e, s).
Proof.
  intros Hex Hread. unfold addTorrent, addTorrent_form, bind, lift.
  rewrite Hex, Hread. reflexivity.
Qed.

Lemma addTorrent_unreadable_file_sends_nothing_witness :
  addTorrent (unreadable_files (Scripted.daemon (Some ["SID=abc123"]) [] "Ok."))
    (inl "/downloads") None None (start no_options)
  = (Thrown (Error "EISDIR: illegal operation on a directory, read"),
     start no_options).
Proof.
  apply (addTorrent_unreadable_file_sends_nothing
           (unreadable_files (Scripted.daemon (Some ["SID=abc123"]) [] "Ok."))
           "/downloads" None None (start no_options)); reflexivity.
Defined.



(** ** The loop of [getAllData] *)

Lemma reserved_key_proto : reserved_key "__proto__" = true.
Proof. reflexivity. Qed.

(** Under a name that is not reserved, a dictionary with reserved own names
    only has nothing. *)
Lemma dict_get_ordinary d k :
  dict_reserved d -> reserved_key k = false -> dict_get d k = PUndefined.
Proof.
  intros Hd Hk. unfold dict_get.
  assert (Hown : own d !! k = None).
  { destruct (own d !! k) as [l |] eqn:E; [| reflexivity].
    apply Hd in E. congruence. }
  unfold reserved_key in Hk. simpl in Hk.
  repeat (apply orb_false_elim in Hk as [? Hk]).
  unfold inherited. simpl. rewrite Hown.
  destruct (proto d);
    repeat match goal with
           | H : String.eqb _ _ = false |- _ => rewrite ?H; clear H
           end;
    reflexivity.
Qed.

Lemma dict_set_reserved d k l :
  dict_reserved d -> reserved_key k = true -> dict_reserved (dict_set d k l).
Proof.
  intros Hd Hk k' l'. unfold dict_set.
  destruct (String.eqb k "__proto__"); simpl; [apply Hd |].
  destruct (decide (k = k')) as [<- | Hne].
  - intros _. exact Hk.
  - rewrite lookup_insert_ne by exact Hne. apply Hd.
Qed.

Lemma empty_dict_reserved : dict_reserved empty_dict.
Proof. intros k l. unfold empty_dict. simpl. rewrite lookup_empty. discriminate. Qed.

Lemma getAllData_loop_throws l : forall results labels_,
  dict_reserved labels_ ->
  Exists ordinary_category l ->
  exists e, getAllData_loop l results labels_ = Thrown e.
Proof.
  induction l as [| torrent rest IH]; intros results labels_ Hd Hex.
  - inversion Hex.
  - simpl. destruct (_normalizeTorrentData torrent) as [n | e] eqn:Hn; [| eauto].
    apply normalize_returned in Hn as (_ & _ & Hlabel). rewrite Hlabel.
    destruct (JS.truthy_string (category torrent)) eqn:Htruthy.
    + destruct (reserved_key (category torrent)) eqn:Hres.
      * destruct (truthy_val (dict_get labels_ (category torrent))); [| eauto].
        apply IH.
        -- now apply dict_set_reserved.
        -- apply Exists_cons in Hex as [[_ Hord] | Hex]; [congruence | exact Hex].
      * rewrite (dict_get_ordinary _ _ Hd Hres). simpl. eauto.
    + apply IH; [exact Hd |].
      apply Exists_cons in Hex as [[Hne _] | Hex]; [| exact Hex].
      unfold JS.truthy_string in Htruthy.
      destruct (String.eqb_spec (category torrent) ""); [contradiction | discriminate].
Qed.

(** [getAllData] throws whenever the list it gets holds a torrent with a
    category that is neither empty nor one of the reserved names, wherever
    in the list that torrent stands; nothing is sent after the listing. *)
Theorem getAllData_throws_on_ordinary_category ext s l s' :
  listTorrents ext None None None s = (Returned l, s') ->
  Exists ordinary_category l ->
  exists e, getAllData ext s = (Thrown e, s').
Proof.
  intros Hlist Hex. unfold getAllData, bind, lift. rewrite Hlist.
  destruct (getAllData_loop_throws l {| torrents := []; labels := [] |} empty_dict
              empty_dict_reserved Hex) as [e ->].
  eauto.
Qed.

Lemma getAllData_throws_on_ordinary_category_witness :
  exists e,
    getAllData
      (Scripted.daemon None
         [Scripted.record "uploading" (100 # 1) "";
          Scripted.record "pausedUP" (100 # 1) "constructor";
          Scripted.record "downloading" (50 # 1) "linux"] "Ok.")
      (Scripted.logged_in "abc123")
    = (Thrown e,
       snd (listTorrents
              (Scripted.daemon None
                 [Scripted.record "uploading" (100 # 1) "";
                  Scripted.record "pausedUP" (100 # 1) "constructor";
                  Scripted.record "downloading" (50 # 1) "linux"] "Ok.")
              None None None (Scripted.logged_in "abc123"))).
Proof.
  apply (getAllData_throws_on_ordinary_category _ _
           [Scripted.record "uploading" (100 # 1) "";
            Scripted.record "pausedUP" (100 # 1) "constructor";
            Scripted.record "downloading" (50 # 1) "linux"]).
  - reflexivity.
  - apply Exists_cons_tl, Exists_cons_tl, Exists_cons_hd.
    split; [discriminate | reflexivity].
Defined.

Lemma getAllData_loop_no_categories l : forall results labels_,
  Forall (fun t => valid_dates t /\ category t = "") l ->
  exists ns,
    Forall2 (fun t n => _normalizeTorrentData t = Returned n) l ns
    /\ getAllData_loop l results labels_
       = Returned {| torrents := torrents results ++ ns; labels := labels results |}.
Proof.
  induction l as [| torrent rest IH]; intros results labels_ Hall.
  - exists []. split; [constructor |]. simpl. rewrite app_nil_r.
    destruct results; reflexivity.
  - apply Forall_cons_1 in Hall as [[Hdates Hcat] Hall].
    destruct Hdates as [Ha Hc].
    destruct (normalize_total torrent) as [n Hn]; try (unfold Date.maxTime; lia).
    simpl. rewrite Hn.
    destruct (normalize_returned _ _ Hn) as (_ & _ & Hlabel).
    rewrite Hlabel, Hcat. simpl.
    destruct (IH {| torrents := torrents results ++ [n]; labels := labels results |}
                labels_ Hall) as (ns & Hns & ->).
    exists (n :: ns). split; [now constructor |].
    simpl. now rewrite <- app_assoc.
Qed.

(** When no listed torrent has a category and all have valid timestamps,
    [getAllData] returns the normalized records in the order of the list,
    one per torrent, with an empty label list. *)
Theorem getAllData_without_categories_returns ext s l s' :
  listTorrents ext None None None s = (Returned l, s') ->
  Forall (fun t => valid_dates t /\ category t = "") l ->
  exists ns,
    Forall2 (fun t n => _normalizeTorrentData t = Returned n) l ns
    /\ getAllData ext s = (Returned {| torrents := ns; labels := [] |}, s').
Proof.
  intros Hlist Hall. unfold getAllData, bind, lift. rewrite Hlist.
  destruct (getAllData_loop_no_categories l {| torrents := []; labels := [] |}
              empty_dict Hall) as (ns & Hns & ->).
  exists ns. split; [exact Hns | reflexivity].
Qed.

Lemma getAllData_without_categories_returns_witness :
  exists ns,
    Forall2 (fun t n => _normalizeTorrentData t = Returned n)
      [Scripted.record "uploading" (100 # 1) ""; Scripted.record "error" (10 # 1) ""] ns
    /\ getAllData
         (Scripted.daemon None
            [Scripted.record "uploading" (100 # 1) "";
             Scripted.record "error" (10 # 1) ""] "Ok.")
         (Scripted.logged_in "abc123")
       = (Returned {| torrents := ns; labels := [] |},
          snd (listTorrents
                 (Scripted.daemon None
                    [Scripted.record "uploading" (100 # 1) "";
                     Scripted.record "error" (10 # 1) ""] "Ok.")
                 None None None (Scripted.logged_in "abc123"))).
Proof.
  apply (getAllData_without_categories_returns
           (Scripted.daemon None
              [Scripted.record "uploading" (100 # 1) "";
               Scripted.record "error" (10 # 1) ""] "Ok.")
           (Scripted.logged_in "abc123")).
  - reflexivity.
  - repeat constructor; simpl; lia.
Defined.

(** ** A fresh instance *)

Lemma apply_config_payload cfg o :
  o_method (apply_config cfg o) = o_method o
  /\ o_form (apply_config cfg o) = o_form o
  /\ o_body (apply_config cfg o) = o_body o
  /\ o_query (apply_config cfg o) = o_query o
  /\ o_json (apply_config cfg o) = o_json o.
Proof.
  unfold apply_config.
  destruct (agent cfg) as [a |]; destruct (timeout cfg) as [n |];
    try destruct (JS.truthy_number n); simpl; repeat split; reflexivity.
Qed.

(** The first call a freshly constructed instance sends, whatever is
    requested, is the login: a form-encoded POST to the login path under the
    configured base URL and API path, with the configured user name and
    password, each of the four falling back to its default when the options
    leave it out. *)
Theorem fresh_instance_logs_in_first ext opts T path_ method params body headers json :
  exists c,
    hd_error (sent (request ext T path_ method params body headers json) (start opts))
    = Some c
    /\ via c = GotPost
    /\ url c = urljoin ext [default "http://localhost:9091/" (opt_baseUrl opts);
                            default "/api/v2" (opt_path opts);
                            "/auth/login"]
    /\ o_form (options c) = Some true
    /\ o_body (options c)
       = ObjBody [("username", VStr (default "" (opt_username opts)));
                  ("password", VStr (default "" (opt_password opts)))].
Proof.
  exists (login_call ext (config (self (start opts)))).
  rewrite (sent_app _ _ _
             (request_wire ext T path_ method params body headers json (start opts))).
  split.
  - simpl. destruct (login ext _) as [[b | e] s1]; reflexivity.
  - unfold login_call, login_options. simpl.
    match goal with
    | |- context [apply_config ?cfg ?o] =>
        destruct (apply_config_payload cfg o) as (_ & -> & -> & _)
    end.
    repeat split.
Qed.

(** ** Failure of the target call *)

(** A target call that the transport fails is not repeated and not followed
    by a fresh login: with a session in place [request] sends that one call,
    throws what the transport threw, and keeps the session it had. *)
Theorem request_failure_is_not_retried ext T path_ method params body headers json s e :
  JS.truthy_opt_string (_sid (self s)) = true ->
  got ext T (wire s) (request_url ext (config (self s)) path_)
    (request_options (config (self s)) (_sid (self s)) method
       (default [] params) body (default [] headers) (default true json))
  = Thrown e ->
  request ext T path_ method params body headers json s =
  (Thrown e,
   {| self := self s;
      wire := wire s ++ [target_call ext (config (self s)) (_sid (self s))
                           path_ method params body headers json] |}).
Proof.
  intros Hsid Hgot. rewrite request_run, Hsid, Hgot. reflexivity.
Qed.

Lemma request_failure_is_not_retried_witness :
  request (unreachable (Scripted.daemon None [] "Ok.")) T_Torrents "/torrents/info"
    "GET" None NoBody None None (Scripted.logged_in "abc123")
  = (Thrown (TransportError "connect ECONNREFUSED"),
     {| self := {| config := defaults; _sid := Some "abc123" |};
        wire := [target_call (unreachable (Scripted.daemon None [] "Ok.")) defaults
                   (Some "abc123") "/torrents/info" "GET" None NoBody None None] |}).
Proof.
  apply (request_failure_is_not_retried
           (unreachable (Scripted.daemon None [] "Ok.")) T_Torrents "/torrents/info"
           "GET" None NoBody None None (Scripted.logged_in "abc123"));
    reflexivity.
Defined.

(** ** What [getAllData] returns *)

Lemma getAllData_loop_returned l : forall results labels_ out,
  getAllData_loop l results labels_ = Returned out ->
  exists ns,
    Forall2 (fun t n => _normalizeTorrentData t = Returned n) l ns
    /\ torrents out = (torrents results ++ ns)%list.
Proof.
  induction l as [| torrent rest IH]; intros results labels_ out; simpl.
  - intros [= <-]. exists []. split; [constructor | now rewrite app_nil_r].
  - destruct (_normalizeTorrentData torrent) as [n | e] eqn:Hn; [| discriminate].
    intros H.
    assert (Hstep : exists d,
               getAllData_loop rest
                 {| torrents := torrents results ++ [n]; labels := labels results |} d
               = Returned out).
    { destruct (JS.truthy_string (Normalized.label n)); [| eauto].
      destruct (truthy_val (dict_get labels_ (Normalized.label n)));
        [eauto | discriminate]. }
    destruct Hstep as [d Hd]. apply IH in Hd as (ns & Hns & Hout).
    exists (n :: ns). split; [now constructor |].
    rewrite Hout. simpl. now rewrite <- app_assoc.
Qed.

(** Whenever [getAllData] returns, the listing had returned, the result
    holds the normalization of every listed torrent, in order, and its label
    list is empty: the labels the loop collects are never handed out. *)
Theorem getAllData_result_shape ext s out s' :
  getAllData ext s = (Returned out, s') ->
  exists l,
    listTorrents ext None None None s = (Returned l, s')
    /\ Forall2 (fun t n => _normalizeTorrentData t = Returned n) l (torrents out)
    /\ labels out = [].
Proof.
  unfold getAllData, bind, lift.
  destruct (listTorrents ext None None None s) as [[l | e] s1]; [| discriminate].
  destruct (getAllData_loop l _ _) as [out' | e] eqn:Hloop; [| discriminate].
  intros [= -> ->]. exists l. split; [reflexivity |].
  pose proof (getAllData_loop_labels _ _ _ _ Hloop) as Hlabels.
  apply getAllData_loop_returned in Hloop as (ns & Hns & Hout).
  simpl in Hout, Hlabels. rewrite Hout. now split.
Qed.

Lemma getAllData_result_shape_witness :
  exists l,
    listTorrents
      (Scripted.daemon None
         [Scripted.record "uploading" (100 # 1) "constructor";
          Scripted.record "pausedDL" (25 # 1) "constructor"] "Ok.")
      None None None (Scripted.logged_in "abc123")
    = (Returned l,
       snd (getAllData
              (Scripted.daemon None
                 [Scripted.record "uploading" (100 # 1) "constructor";
                  Scripted.record "pausedDL" (25 # 1) "constructor"] "Ok.")
              (Scripted.logged_in "abc123")))
    /\ Forall2 (fun t n => _normalizeTorrentData t = Returned n) l
         (match fst (getAllData
                       (Scripted.daemon None
                          [Scripted.record "uploading" (100 # 1) "constructor";
                           Scripted.record "pausedDL" (25 # 1) "constructor"] "Ok.")
                       (Scripted.logged_in "abc123")) with
          | Returned out => torrents out
          | Thrown _ => []
          end)
    /\ [] = @nil Label.
Proof.
  set (ext := Scripted.daemon None
                [Scripted.record "uploading" (100 # 1) "constructor";
                 Scripted.record "pausedDL" (25 # 1) "constructor"] "Ok.").
  destruct (fst (getAllData ext (Scripted.logged_in "abc123"))) as [out | e] eqn:E;
    [| vm_compute in E; discriminate].
  destruct (getAllData_result_shape ext (Scripted.logged_in "abc123") out
              (snd (getAllData ext (Scripted.logged_in "abc123"))))
    as (l & Hl & Hns & Hlabels).
  - rewrite <- E. destruct (getAllData ext (Scripted.logged_in "abc123")). reflexivity.
  - exists l. split; [exact Hl |]. split; [exact Hns | reflexivity].
Defined.
